(** * gabbygrove: the binary reference codec of binref.go

    A shallow embedding of [BinaryRef] (binref.go) and of its binary codec:
    [valid], [MarshalBinary], [UnmarshalBinary], [Size], [fromRef] and
    [refFromPubKey].

    Conventions of the embedding.
    - A Go byte slice is a [list byte]; the nil slice and the empty slice are
      both [[]] (they have the same length, which is all the code looks at).
    - A Go pointer field that is either nil or points to a value owned by the
      struct is an [option].
    - A Go function returning [(v, error)] returns a pair whose second
      component is an [option error] ([None] is the nil error).  Go lets both
      components be meaningful at once, and binref.go uses that, so the pair
      is kept as a pair.
    - A method with a pointer receiver that assigns to the receiver takes the
      receiver's value and returns the new one.
    - A run-time panic (nil dereference, slice bounds) is the outcome
      [Panics]. *)

From Stdlib Require Import String List Arith Bool Lia.
From Stdlib Require Import Strings.Byte.
Import ListNotations.

(** ** Errors and outcomes *)

(** [refs.RefAlgo] is a string type. *)
Definition RefAlgo : Type := string.

(** The error values binref.go creates, one constructor per creation site,
    carrying the values its format string prints.  [ErrForeign] stands for an
    error value made outside binref.go and handed through unchanged. *)
Inductive error : Type :=
| ErrMoreThanOneRef                         (* valid: "more than one ref in binref" *)
| ErrMarshalContentAlgo (a : RefAlgo)       (* MarshalBinary: "invalid binary content ref for feed: %s" *)
| ErrInvalidLen (n : nat)                   (* UnmarshalBinary: "binref: invalid len:%d" *)
| ErrUnmarshalContentAlgo (a : RefAlgo)     (* UnmarshalBinary: "unmarshal: invalid binary content ref for feed: %q" *)
| ErrInvalidBinrefType (b : byte)           (* UnmarshalBinary: "unmarshal: invalid binref type: %x" *)
| ErrFromRefInvalidType                     (* fromRef: "fromRef: invalid ref type: %T" *)
| ErrInvalidPublicKey                       (* refFromPubKey: "invalid public key" *)
| ErrForeign (msg : string).

Inductive outcome (A : Type) : Type :=
| Returns (a : A)
| Panics.

Arguments Returns {A} a.
Arguments Panics {A}.

(** ** Collaborators

    binref.go calls into the package go.mindeco.de/ssb-refs and into the
    [ContentRef] type.  Neither is defined in binref.go, so both are taken as
    parameters: an interface of operations, and, separately, the parts of
    their contract that individual theorems rely on. *)

Class RefsLib : Type := {
  FeedRef : Type;
  MessageRef : Type;
  RefAlgoFeedGabby : RefAlgo;
  RefAlgoMessageGabby : RefAlgo;
  (* func NewFeedRefFromBytes(b []byte, algo RefAlgo) (FeedRef, error) *)
  NewFeedRefFromBytes : list byte -> RefAlgo -> FeedRef * option error;
  (* func (ref FeedRef) PubKey() ed25519.PublicKey *)
  PubKey : FeedRef -> list byte;
  (* func NewMessageRefFromBytes(b []byte, algo RefAlgo) (MessageRef, error) *)
  NewMessageRefFromBytes : list byte -> RefAlgo -> MessageRef * option error;
  (* func (ref MessageRef) CopyHashTo(b []byte) error; the first component is
     the content of the caller's buffer after the call *)
  CopyHashTo : MessageRef -> list byte -> list byte * option error
}.

Class ContentRefImpl : Type := {
  ContentRef : Type;
  RefAlgoContentGabby : RefAlgo;
  (* var newCR ContentRef *)
  zeroContentRef : ContentRef;
  (* the field cr.algo *)
  algo : ContentRef -> RefAlgo;
  (* func (ref ContentRef) Algo() RefAlgo *)
  Algo : ContentRef -> RefAlgo;
  (* func (ref ContentRef) MarshalBinary() ([]byte, error) *)
  ContentRef_MarshalBinary : ContentRef -> list byte * option error;
  (* func (ref *ContentRef) UnmarshalBinary(data []byte) error; the first
     component is the receiver after the call *)
  ContentRef_UnmarshalBinary : ContentRef -> list byte -> ContentRef * option error
}.

(** ed25519.PublicKeySize *)
Definition PublicKeySize : nat := 32.

(** make([]byte, n) *)
Definition make (n : nat) : list byte := repeat x00 n.

(** ** binref.go *)

Inductive RefType : Type :=
| RefTypeUndefined
| RefTypeFeed
| RefTypeMessage
| RefTypeContent.

Definition binrefSize : nat := 33.

Section BinRef.

Context {L : RefsLib} {C : ContentRefImpl}.

Record BinaryRef : Type := mkBinaryRef {
  fr : option FeedRef;
  mr : option MessageRef;
  cr : option ContentRef
}.

(** The zero value [BinaryRef{}]. *)
Definition zeroBinaryRef : BinaryRef :=
  {| fr := None; mr := None; cr := None |}.

Definition valid (ref : BinaryRef) : RefType * option error :=
  let i := 0 in
  let t := RefTypeUndefined in
  let '(i, t) := match fr ref with
                 | Some _ => (i + 1, RefTypeFeed)
                 | None => (i, t)
                 end in
  let '(i, t) := match mr ref with
                 | Some _ => (i + 1, RefTypeMessage)
                 | None => (i, t)
                 end in
  let '(i, t) := match cr ref with
                 | Some _ => (i + 1, RefTypeContent)
                 | None => (i, t)
                 end in
  if 1 <? i then (RefTypeUndefined, Some ErrMoreThanOneRef) else (t, None).

Definition MarshalBinary (ref : BinaryRef)
  : outcome (list byte * option error) :=
  match valid ref with
  | (_, Some err) => Returns ([], Some err)
  | (t, None) =>
      match t with
      | RefTypeFeed =>
          match fr ref with
          | Some f => Returns (x01 :: PubKey f, None)
          | None => Panics
          end
      | RefTypeMessage =>
          match mr ref with
          | Some m =>
              let hd := make 32 in
              let '(hd, err) := CopyHashTo m hd in
              Returns (x02 :: hd, err)
          | None => Panics
          end
      | RefTypeContent =>
          match cr ref with
          | Some c =>
              if negb (String.eqb (algo c) RefAlgoContentGabby)
              then Returns ([], Some (ErrMarshalContentAlgo (algo c)))
              else
                let '(crBytes, err) := ContentRef_MarshalBinary c in
                match crBytes with
                | _ :: rest => Returns (x03 :: rest, err)
                | [] => Panics (* crBytes[1:] of a slice of length 0 *)
                end
          | None => Panics
          end
      | RefTypeUndefined => Returns ([], None)
      end
  end.

Definition UnmarshalBinary (ref : BinaryRef) (data : list byte)
  : outcome (BinaryRef * option error) :=
  let n := length data in
  if negb (n =? binrefSize) then Returns (ref, Some (ErrInvalidLen n))
  else
    match data with
    | [] => Panics (* data[0] of a slice of length 0 *)
    | d0 :: rest =>
        match d0 with
        | x01 =>
            let '(f, err) := NewFeedRefFromBytes rest RefAlgoFeedGabby in
            match err with
            | Some e => Returns (ref, Some e)
            | None =>
                Returns ({| fr := Some f; mr := mr ref; cr := cr ref |}, None)
            end
        | x02 =>
            let '(m, err) := NewMessageRefFromBytes rest RefAlgoMessageGabby in
            match err with
            | Some e => Returns (ref, Some e)
            | None =>
                Returns ({| fr := fr ref; mr := Some m; cr := cr ref |}, None)
            end
        | x03 =>
            let '(newCR, err) :=
              ContentRef_UnmarshalBinary zeroContentRef (x02 :: rest) in
            match err with
            | Some e => Returns (ref, Some e)
            | None =>
                if negb (String.eqb (Algo newCR) RefAlgoContentGabby)
                then Returns (ref, Some (ErrUnmarshalContentAlgo (algo newCR)))
                else
                  Returns
                    ({| fr := fr ref; mr := mr ref; cr := Some newCR |}, None)
            end
        | _ => Returns (ref, Some (ErrInvalidBinrefType d0))
        end
    end.

Definition Size (ref : BinaryRef) : nat := binrefSize.

(** The dynamic type of a [refs.Ref] interface value, as far as the type
    switch of [fromRef] tells values apart. *)
Inductive Ref : Type :=
| DynFeedRef (tr : FeedRef)
| DynMessageRef (tr : MessageRef)
| DynContentRef (tr : ContentRef)
| DynOther.

Definition fromRef (r : Ref) : BinaryRef * option error :=
  let br := zeroBinaryRef in
  match r with
  | DynFeedRef tr =>
      ({| fr := Some tr; mr := mr br; cr := cr br |}, None)
  | DynMessageRef tr =>
      ({| fr := fr br; mr := Some tr; cr := cr br |}, None)
  | DynContentRef tr =>
      ({| fr := fr br; mr := mr br; cr := Some tr |}, None)
  | DynOther => (zeroBinaryRef, Some ErrFromRefInvalidType)
  end.

Definition NewBinaryRef (r : Ref) : BinaryRef * option error := fromRef r.

(** The first component is the returned [*BinaryRef]: [None] is nil. *)
Definition refFromPubKey (pk : list byte) : option BinaryRef * option error :=
  if negb (length pk =? PublicKeySize) then (None, Some ErrInvalidPublicKey)
  else
    let '(f, err) := NewFeedRefFromBytes pk RefAlgoFeedGabby in
    (Some {| fr := Some f; mr := None; cr := None |}, err).

End BinRef.

(** ** Observations on a [BinaryRef] *)

Section Observations.

Context {L : RefsLib} {C : ContentRefImpl}.

(** How many of the three members are set (non-nil). *)
Definition membersSet (ref : BinaryRef) : nat :=
  match fr ref with Some _ => 1 | None => 0 end
  + match mr ref with Some _ => 1 | None => 0 end
  + match cr ref with Some _ => 1 | None => 0 end.

(** The 32 bytes a reference stands for, read the way [MarshalBinary] reads
    them: the public key of a feed reference, the hash a message reference
    copies into a fresh 32-byte buffer, the binary form of a content
    reference without its leading tag byte. *)
Definition feedPayload (f : FeedRef) : list byte := PubKey f.

Definition messagePayload (m : MessageRef) : list byte :=
  fst (CopyHashTo m (make 32)).

Definition contentPayload (c : ContentRef) : list byte :=
  tl (fst (ContentRef_MarshalBinary c)).

Definition payload (ref : BinaryRef) : list byte :=
  match fr ref, mr ref, cr ref with
  | Some f, None, None => feedPayload f
  | None, Some m, None => messagePayload m
  | None, None, Some c => contentPayload c
  | _, _, _ => []
  end.

(** The states of a receiver that starts as the zero value and goes through
    any number of successful [UnmarshalBinary] calls. *)
Inductive decodedFromZero : BinaryRef -> Prop :=
| decoded_zero : decodedFromZero zeroBinaryRef
| decoded_step (ref ref' : BinaryRef) (data : list byte) :
    decodedFromZero ref ->
    UnmarshalBinary ref data = Returns (ref', None) ->
    decodedFromZero ref'.

(** The states the constructors and the decoder produce. *)
Definition reachable (br : BinaryRef) : Prop :=
  (exists r, fromRef r = (br, None))
  \/ (exists pk, refFromPubKey pk = (Some br, None))
  \/ decodedFromZero br.

(** ** What the theorems ask of the collaborators

    Each is one clause of the collaborators' contract; a theorem names the
    clauses it needs. *)

(** ssb-refs keeps a feed's key in a 32-byte array. *)
Definition PubKeyIs32 : Prop :=
  forall f : FeedRef, length (PubKey f) = 32.

(** ssb-refs accepts any 32 bytes as a gabby feed key and keeps them. *)
Definition NewFeedRefKeeps32 : Prop :=
  forall b : list byte, length b = 32 ->
    exists f, NewFeedRefFromBytes b RefAlgoFeedGabby = (f, None)
              /\ PubKey f = b.

(** A callee writes into the caller's slice but cannot change its length. *)
Definition CopyHashToKeepsLength : Prop :=
  forall (m : MessageRef) (buf : list byte),
    length (fst (CopyHashTo m buf)) = length buf.

(** Copying a message hash into a fresh 32-byte buffer succeeds. *)
Definition CopyHashToFits32 : Prop :=
  forall m : MessageRef, snd (CopyHashTo m (make 32)) = None.

(** ssb-refs accepts any 32 bytes as a gabby message hash and keeps them. *)
Definition NewMessageRefKeeps32 : Prop :=
  forall b : list byte, length b = 32 ->
    exists m, NewMessageRefFromBytes b RefAlgoMessageGabby = (m, None)
              /\ messagePayload m = b.

(** The binary form of a content reference is one tag byte and 32 bytes. *)
Definition ContentMarshalIs33 : Prop :=
  forall (c : ContentRef) (bs : list byte),
    ContentRef_MarshalBinary c = (bs, None) -> length bs = 33.

(** A content reference of the gabby algorithm has a binary form. *)
Definition ContentGabbyMarshals : Prop :=
  forall c : ContentRef,
    algo c = RefAlgoContentGabby -> snd (ContentRef_MarshalBinary c) = None.

(** [0x02] is the content tag of the gabby algorithm: a fresh content
    reference decodes any 32 bytes under that tag, to a gabby reference that
    keeps them. *)
Definition ContentUnmarshalKeeps32 : Prop :=
  forall h : list byte, length h = 32 ->
    exists c, ContentRef_UnmarshalBinary zeroContentRef (x02 :: h) = (c, None)
              /\ Algo c = RefAlgoContentGabby
              /\ contentPayload c = h.

End Observations.

(** ** Collaborators to run the code on

    Modelled from the spec: the collaborators of sections 3 and 6, which
    binref.go only imports.  A feed reference is a 32-byte public key, a
    message reference a 32-byte hash, a content reference a 32-byte hash with
    an algorithm tag; the binary form of a content reference is its tag byte
    followed by its 32 bytes.  The theorems do not depend on these
    definitions: they serve to evaluate the code on concrete inputs. *)

Module Model.

(** Reading a [[32]byte] array: the stored bytes, cut or zero-filled to 32. *)
Definition array32 (l : list byte) : list byte :=
  firstn 32 (l ++ repeat x00 (32 - length l)).

Record feedRef : Type := { feedID : list byte; feedAlgo : RefAlgo }.
Record messageRef : Type := { msgHash : list byte; msgAlgo : RefAlgo }.
Record contentRef : Type := { crHash : list byte; crAlgo : RefAlgo }.

Definition newFeedRefFromBytes (b : list byte) (a : RefAlgo)
  : feedRef * option error :=
  if length b =? 32 then ({| feedID := b; feedAlgo := a |}, None)
  else ({| feedID := []; feedAlgo := EmptyString |},
        Some (ErrForeign "ssb: unexpected key length"%string)).

Definition newMessageRefFromBytes (b : list byte) (a : RefAlgo)
  : messageRef * option error :=
  if length b =? 32 then ({| msgHash := b; msgAlgo := a |}, None)
  else ({| msgHash := []; msgAlgo := EmptyString |},
        Some (ErrForeign "ssb: unexpected hash length"%string)).

Definition copyHashTo (m : messageRef) (buf : list byte)
  : list byte * option error :=
  if length buf =? 32 then (array32 (msgHash m), None)
  else (buf, Some (ErrForeign "ssb: bad buffer length"%string)).

Definition refs : RefsLib := {|
  FeedRef := feedRef;
  MessageRef := messageRef;
  RefAlgoFeedGabby := "ggfeed-v1"%string;
  RefAlgoMessageGabby := "ggmsg-v1"%string;
  NewFeedRefFromBytes := newFeedRefFromBytes;
  PubKey := fun f => array32 (feedID f);
  NewMessageRefFromBytes := newMessageRefFromBytes;
  CopyHashTo := copyHashTo
|}.

Definition gabbyContent : RefAlgo := "gabby-v1-content"%string.

(** The tag byte a content algorithm is written with. *)
Definition contentMarshal (c : contentRef) : list byte * option error :=
  if String.eqb (crAlgo c) gabbyContent
  then (x02 :: array32 (crHash c), None)
  else ([], Some (ErrForeign "contentRef/Marshal: invalid binref type"%string)).

(** [tagAlgo] is the algorithm the tag [0x02] is read as. *)
Definition contentUnmarshal (tagAlgo : RefAlgo) (recv : contentRef)
  (data : list byte) : contentRef * option error :=
  if negb (length data =? 33)
  then (recv, Some (ErrForeign "contentRef: invalid len"%string))
  else
    match data with
    | x02 :: h => ({| crHash := h; crAlgo := tagAlgo |}, None)
    | _ => (recv, Some (ErrForeign "unmarshal: invalid contentRef type"%string))
    end.

Definition content : ContentRefImpl := {|
  ContentRef := contentRef;
  RefAlgoContentGabby := gabbyContent;
  zeroContentRef := {| crHash := []; crAlgo := EmptyString |};
  algo := crAlgo;
  Algo := crAlgo;
  ContentRef_MarshalBinary := contentMarshal;
  ContentRef_UnmarshalBinary := contentUnmarshal gabbyContent
|}.

(** A content reference type whose tag [0x02] belongs to another algorithm
    than the one binref.go supports. *)
Definition otherContent : ContentRefImpl := {|
  ContentRef := contentRef;
  RefAlgoContentGabby := gabbyContent;
  zeroContentRef := {| crHash := []; crAlgo := EmptyString |};
  algo := crAlgo;
  Algo := crAlgo;
  ContentRef_MarshalBinary := contentMarshal;
  ContentRef_UnmarshalBinary := contentUnmarshal "sha256"%string
|}.

Definition zeros32 : list byte := make 32.

(** 32 bytes that are not all equal. *)
Definition key32 : list byte :=
  [x10; x11; x12; x13; x14; x15; x16; x17; x18; x19; x1a; x1b; x1c; x1d; x1e;
   x1f; x20; x21; x22; x23; x24; x25; x26; x27; x28; x29; x2a; x2b; x2c; x2d;
   x2e; x2f].

Definition aFeed : feedRef := {| feedID := key32; feedAlgo := "ggfeed-v1"%string |}.
Definition aMessage : messageRef :=
  {| msgHash := key32; msgAlgo := "ggmsg-v1"%string |}.
Definition aContent : contentRef :=
  {| crHash := key32; crAlgo := gabbyContent |}.
Definition aForeignContent : contentRef :=
  {| crHash := key32; crAlgo := "sha256"%string |}.

End Model.

(** References and blobs over those collaborators. *)

Module Sample.

Definition BinRef : Type := @BinaryRef Model.refs Model.content.

Definition zero : BinRef := zeroBinaryRef.
Definition feedOnly : BinRef :=
  @mkBinaryRef Model.refs Model.content (Some Model.aFeed) None None.
Definition messageOnly : BinRef :=
  @mkBinaryRef Model.refs Model.content None (Some Model.aMessage) None.
Definition contentOnly : BinRef :=
  @mkBinaryRef Model.refs Model.content None None (Some Model.aContent).
Definition foreignContentOnly : BinRef :=
  @mkBinaryRef Model.refs Model.content None None (Some Model.aForeignContent).
Definition feedAndMessage : BinRef :=
  @mkBinaryRef Model.refs Model.content (Some Model.aFeed) (Some Model.aMessage) None.

(** A receiver over the content type that reads tag [0x02] differently. *)
Definition otherZero : @BinaryRef Model.refs Model.otherContent :=
  zeroBinaryRef.

Definition contentBlob : list byte := x03 :: Model.key32.
Definition unknownBlob : list byte := xff :: Model.zeros32.
Definition longBlob : list byte := x01 :: x00 :: Model.zeros32.

End Sample.

(** ** binref.go, the other functions

    [GetRef], [Ref], [bytestr], [MarshalJSON], [UnmarshalJSON] and the codec
    extension [BinRefExt] with [ConvertExt] and [UpdateExt]. *)

(** The [Ref() string] methods of the three reference types. *)
Class RefStrings {L : RefsLib} {C : ContentRefImpl} : Type := {
  FeedRef_Ref : FeedRef -> string;
  MessageRef_Ref : MessageRef -> string;
  ContentRef_Ref : ContentRef -> string
}.

(** The error values these functions create, one constructor per creation
    site. *)
Inductive error2 : Type :=
| ErrGetRefInvalid (cause : error)  (* GetRef: errors.Wrap(err, "GetRef: invalid reference") *)
| ErrGetRefDiffers (hasT : RefType) (* GetRef: "GetRef: asked for type differs (has %d)" *)
| ErrGetRefInvalidType (t : nat)    (* GetRef: "GetRef: invalid ref type: %d" *)
| ErrAllNil                         (* MarshalJSON: "should not all be nil" *)
| ErrTodoJSON.                      (* UnmarshalJSON: "TODO:json" *)

(** [RefType] is a [uint]; the constants are numbered by [iota]. *)
Definition RefType_uint (t : RefType) : nat :=
  match t with
  | RefTypeUndefined => 0
  | RefTypeFeed => 1
  | RefTypeMessage => 2
  | RefTypeContent => 3
  end.

(** The discriminant byte [MarshalBinary] writes and [UnmarshalBinary] reads
    for a kind ([RefTypeUndefined] has none: 0x00 is not accepted). *)
Definition discriminant (t : RefType) : byte :=
  match t with
  | RefTypeUndefined => x00
  | RefTypeFeed => x01
  | RefTypeMessage => x02
  | RefTypeContent => x03
  end.

Section BinRefAccess.

Context {L : RefsLib} {C : ContentRefImpl} {S : RefStrings}.

(** A non-nil [refs.Ref] interface value as binref.go makes them: it holds
    one of the three pointer members, which as a pointer may be nil. *)
Inductive RefPtr : Type :=
| PtrFeedRef (p : option FeedRef)
| PtrMessageRef (p : option MessageRef)
| PtrContentRef (p : option ContentRef).

(** [r.Ref()] on such a value; the methods have value receivers, so the call
    dereferences the pointer. *)
Definition RefPtr_Ref (r : RefPtr) : outcome string :=
  match r with
  | PtrFeedRef (Some f) => Returns (FeedRef_Ref f)
  | PtrMessageRef (Some m) => Returns (MessageRef_Ref m)
  | PtrContentRef (Some c) => Returns (ContentRef_Ref c)
  | _ => Panics
  end.

(** The argument is a [RefType], that is any [uint]; the first component of
    the result is the returned interface value, [None] for nil. *)
Definition GetRef (ref : BinaryRef) (t : nat) : option RefPtr * option error2 :=
  let '(hasT, err) := valid ref in
  match err with
  | Some e => (None, Some (ErrGetRefInvalid e))
  | None =>
      if negb (RefType_uint hasT =? t)
      then (None, Some (ErrGetRefDiffers hasT))
      else if t =? RefType_uint RefTypeFeed
      then (Some (PtrFeedRef (fr ref)), None)
      else if t =? RefType_uint RefTypeMessage
      then (Some (PtrMessageRef (mr ref)), None)
      else if t =? RefType_uint RefTypeContent
      then (Some (PtrContentRef (cr ref)), None)
      else (None, Some (ErrGetRefInvalidType t))
  end.

(** The method [Ref] of [BinaryRef]. *)
Definition BinaryRef_Ref (ref : BinaryRef) : outcome string :=
  let '(t, err) := valid ref in
  match err with
  | Some _ => Panics
  | None =>
      let '(r, err) := GetRef ref (RefType_uint t) in
      match err with
      | Some _ => Panics
      | None =>
          match r with
          | Some r => RefPtr_Ref r
          | None => Panics (* method call on a nil interface *)
          end
      end
  end.

(** The bytes of [r.Ref()] between two double quotes; 0x22 is the double
    quote. *)
Definition bytestr (r : RefPtr) : outcome (list byte) :=
  match RefPtr_Ref r with
  | Returns s => Returns (x22 :: list_byte_of_string s ++ [x22])
  | Panics => Panics
  end.

Definition MarshalJSON (ref : BinaryRef)
  : outcome (list byte * option error2) :=
  match fr ref with
  | Some _ =>
      match bytestr (PtrFeedRef (fr ref)) with
      | Returns bs => Returns (bs, None)
      | Panics => Panics
      end
  | None =>
      match mr ref with
      | Some _ =>
          match bytestr (PtrMessageRef (mr ref)) with
          | Returns bs => Returns (bs, None)
          | Panics => Panics
          end
      | None =>
          match cr ref with
          | Some _ =>
              match bytestr (PtrContentRef (cr ref)) with
              | Returns bs => Returns (bs, None)
              | Panics => Panics
              end
          | None => Returns ([], Some ErrAllNil)
          end
      end
  end.

Definition UnmarshalJSON (ref : BinaryRef) (data : list byte)
  : BinaryRef * option error2 :=
  (ref, Some ErrTodoJSON).

(** An [interface{}] value as the codec hands them to the extension: a
    [*BinaryRef] ([None] is the nil pointer), a [[]byte], or a value of any
    other type. *)
Inductive iface : Type :=
| IBinaryRefPtr (p : option BinaryRef)
| IBytes (b : list byte)
| IOther.

(** The result is the returned [[]byte]. *)
Definition ConvertExt (v : iface) : outcome (list byte) :=
  match v with
  | IBinaryRefPtr p =>
      match p with
      | Some br =>
          match MarshalBinary br with
          | Returns (refBytes, err) =>
              match err with
              | Some _ => Panics
              | None => Returns refBytes
              end
          | Panics => Panics
          end
      | None => Panics (* br.MarshalBinary() copies *br *)
      end
  | _ => Panics
  end.

(** The result is the [BinaryRef] that [dst] points to after the call.
    Through a nil [dst] pointer [UnmarshalBinary] either returns an error or
    assigns to a member of nil, so the call panics either way. *)
Definition UpdateExt (dst src : iface) : outcome BinaryRef :=
  match dst with
  | IBinaryRefPtr p =>
      match src with
      | IBytes input =>
          match p with
          | Some br =>
              match UnmarshalBinary br input with
              | Returns (br', err) =>
                  match err with
                  | Some _ => Panics
                  | None => Returns br'
                  end
              | Panics => Panics
              end
          | None => Panics
          end
      | _ => Panics
      end
  | _ => Panics
  end.

End BinRefAccess.

(** One more clause of the collaborators' contract: the method [Algo] of a
    content reference reads its field [algo]. *)
Definition AlgoReadsField {C : ContentRefImpl} : Prop :=
  forall c : ContentRef, Algo c = algo c.

(** String forms to run the code on: the sigil, the 32 bytes, a dot and the
    algorithm.  (The libraries write the bytes in base64; binref.go does not
    look into the string.) *)
Definition sigilString (sigil : string) (b : list byte) (a : RefAlgo)
  : string :=
  (sigil ++ string_of_list_byte (Model.array32 b) ++ "." ++ a)%string.

Definition feedString (f : Model.feedRef) : string :=
  sigilString "@" (Model.feedID f) (Model.feedAlgo f).

Definition messageString (m : Model.messageRef) : string :=
  sigilString "%" (Model.msgHash m) (Model.msgAlgo m).

Definition contentString (c : Model.contentRef) : string :=
  sigilString "!" (Model.crHash c) (Model.crAlgo c).

Definition modelStrings : @RefStrings Model.refs Model.content :=
  @Build_RefStrings Model.refs Model.content
    feedString messageString contentString.

Module Sample2.

Definition allThree : Sample.BinRef :=
  @mkBinaryRef Model.refs Model.content
    (Some Model.aFeed) (Some Model.aMessage) (Some Model.aContent).

Definition messageAndContent : Sample.BinRef :=
  @mkBinaryRef Model.refs Model.content
    None (Some Model.aMessage) (Some Model.aContent).

Definition otherKey32 : list byte := rev Model.key32.

Definition anotherFeed : Model.feedRef :=
  {| Model.feedID := otherKey32; Model.feedAlgo := "ggfeed-v1"%string |}.

Definition anotherFeedOnly : Sample.BinRef :=
  @mkBinaryRef Model.refs Model.content (Some anotherFeed) None None.

End Sample2.

(** * Properties *)

Section Properties.

Context {L : RefsLib} {C : ContentRefImpl}.

(** ** [valid] *)

Lemma valid_by_members (ref : BinaryRef) :
  valid ref =
  match fr ref, mr ref, cr ref with
  | None, None, None => (RefTypeUndefined, None)
  | Some _, None, None => (RefTypeFeed, None)
  | None, Some _, None => (RefTypeMessage, None)
  | None, None, Some _ => (RefTypeContent, None)
  | _, _, _ => (RefTypeUndefined, Some ErrMoreThanOneRef)
  end.
Proof.
  unfold valid.
  destruct (fr ref), (mr ref), (cr ref); reflexivity.
Qed.

Lemma valid_error_iff (ref : BinaryRef) :
  snd (valid ref) = Some ErrMoreThanOneRef <-> 2 <= membersSet ref.
Proof.
  rewrite valid_by_members. unfold membersSet.
  destruct (fr ref), (mr ref), (cr ref); cbn; split; intros H;
    try reflexivity; try discriminate; lia.
Qed.

Lemma valid_error_is_multiple (ref : BinaryRef) (t : RefType) (e : error) :
  valid ref = (t, Some e) -> t = RefTypeUndefined /\ e = ErrMoreThanOneRef.
Proof.
  rewrite valid_by_members.
  destruct (fr ref), (mr ref), (cr ref); intros H; inversion H; auto.
Qed.

(** ** [UnmarshalBinary]: the length check and the dispatch *)

Lemma UnmarshalBinary_bad_length (ref : BinaryRef) (data : list byte) :
  length data <> binrefSize ->
  UnmarshalBinary ref data
  = Returns (ref, Some (ErrInvalidLen (length data))).
Proof.
  intros Hlen. unfold UnmarshalBinary.
  apply Nat.eqb_neq in Hlen. rewrite Hlen. reflexivity.
Qed.

Lemma length_33_cons (data : list byte) :
  length data = 33 -> exists d0 rest, data = d0 :: rest /\ length rest = 32.
Proof.
  destruct data as [|d0 rest]; cbn; intros H; [discriminate|].
  exists d0, rest. split; [reflexivity|lia].
Qed.

Lemma UnmarshalBinary_feed (ref : BinaryRef) (rest : list byte) :
  length rest = 32 ->
  UnmarshalBinary ref (x01 :: rest)
  = let '(f, err) := NewFeedRefFromBytes rest RefAlgoFeedGabby in
    match err with
    | Some e => Returns (ref, Some e)
    | None => Returns ({| fr := Some f; mr := mr ref; cr := cr ref |}, None)
    end.
Proof.
  intros Hlen. unfold UnmarshalBinary. cbn [length]. rewrite Hlen.
  reflexivity.
Qed.

Lemma UnmarshalBinary_message (ref : BinaryRef) (rest : list byte) :
  length rest = 32 ->
  UnmarshalBinary ref (x02 :: rest)
  = let '(m, err) := NewMessageRefFromBytes rest RefAlgoMessageGabby in
    match err with
    | Some e => Returns (ref, Some e)
    | None => Returns ({| fr := fr ref; mr := Some m; cr := cr ref |}, None)
    end.
Proof.
  intros Hlen. unfold UnmarshalBinary. cbn [length]. rewrite Hlen.
  reflexivity.
Qed.

Lemma UnmarshalBinary_content (ref : BinaryRef) (rest : list byte) :
  length rest = 32 ->
  UnmarshalBinary ref (x03 :: rest)
  = let '(newCR, err) :=
      ContentRef_UnmarshalBinary zeroContentRef (x02 :: rest) in
    match err with
    | Some e => Returns (ref, Some e)
    | None =>
        if negb (String.eqb (Algo newCR) RefAlgoContentGabby)
        then Returns (ref, Some (ErrUnmarshalContentAlgo (algo newCR)))
        else Returns ({| fr := fr ref; mr := mr ref; cr := Some newCR |}, None)
    end.
Proof.
  intros Hlen. unfold UnmarshalBinary. cbn [length]. rewrite Hlen.
  reflexivity.
Qed.

Lemma UnmarshalBinary_other (ref : BinaryRef) (d0 : byte) (rest : list byte) :
  length rest = 32 -> d0 <> x01 -> d0 <> x02 -> d0 <> x03 ->
  UnmarshalBinary ref (d0 :: rest)
  = Returns (ref, Some (ErrInvalidBinrefType d0)).
Proof.
  intros Hlen H1 H2 H3. unfold UnmarshalBinary. cbn [length]. rewrite Hlen.
  change (negb (33 =? binrefSize)) with false. cbv iota.
  destruct d0; try reflexivity; congruence.
Qed.

(** C3: [UnmarshalBinary] of a byte sequence whose length is not 33 fails
    with the invalid-length error, which carries that length, whatever the
    bytes are; the receiver is not assigned. *)
Theorem UnmarshalBinary_invalid_length (ref : BinaryRef) (data : list byte) :
  length data <> 33 ->
  UnmarshalBinary ref data
  = Returns (ref, Some (ErrInvalidLen (length data))).
Proof.
  intros Hlen. apply UnmarshalBinary_bad_length. exact Hlen.
Qed.

(** C4: [UnmarshalBinary] of 33 bytes whose first byte is none of 0x01,
    0x02, 0x03 fails with the invalid-type error, which carries that byte,
    whatever the other 32 bytes are. *)
Theorem UnmarshalBinary_unknown_discriminant
  (ref : BinaryRef) (data : list byte) (d0 : byte) (rest : list byte) :
  length data = 33 -> data = d0 :: rest ->
  d0 <> x01 -> d0 <> x02 -> d0 <> x03 ->
  UnmarshalBinary ref data = Returns (ref, Some (ErrInvalidBinrefType d0)).
Proof.
  intros Hlen -> H1 H2 H3. cbn in Hlen.
  apply UnmarshalBinary_other; auto.
Qed.

(** C10: when [UnmarshalBinary] returns an error, on any of its four error
    paths, the receiver it leaves is the receiver it was given. *)
Theorem UnmarshalBinary_error_keeps_receiver
  (ref ref' : BinaryRef) (data : list byte) (e : error) :
  UnmarshalBinary ref data = Returns (ref', Some e) -> ref' = ref.
Proof.
  destruct (Nat.eq_dec (length data) binrefSize) as [Hlen|Hlen].
  - destruct (length_33_cons data Hlen) as (d0 & rest & -> & Hrest).
    destruct (byte_eq_dec d0 x01) as [->|H1];
      [|destruct (byte_eq_dec d0 x02) as [->|H2];
        [|destruct (byte_eq_dec d0 x03) as [->|H3]]].
    + rewrite (UnmarshalBinary_feed ref rest Hrest).
      destruct (NewFeedRefFromBytes rest RefAlgoFeedGabby) as [f [e'|]];
        intros H; inversion H; reflexivity.
    + rewrite (UnmarshalBinary_message ref rest Hrest).
      destruct (NewMessageRefFromBytes rest RefAlgoMessageGabby) as [m [e'|]];
        intros H; inversion H; reflexivity.
    + rewrite (UnmarshalBinary_content ref rest Hrest).
      destruct (ContentRef_UnmarshalBinary zeroContentRef (x02 :: rest))
        as [newCR [e'|]].
      * intros H; inversion H; reflexivity.
      * destruct (negb (String.eqb (Algo newCR) RefAlgoContentGabby));
          intros H; inversion H; reflexivity.
    + rewrite (UnmarshalBinary_other ref d0 rest Hrest H1 H2 H3).
      intros H; inversion H; reflexivity.
  - rewrite (UnmarshalBinary_bad_length ref data Hlen).
    intros H; inversion H; reflexivity.
Qed.

(** ** [MarshalBinary], member by member *)

Lemma MarshalBinary_of_feed (ref : BinaryRef) (f : FeedRef) :
  fr ref = Some f -> mr ref = None -> cr ref = None ->
  MarshalBinary ref = Returns (x01 :: PubKey f, None).
Proof.
  intros Hf Hm Hc. unfold MarshalBinary.
  rewrite valid_by_members, Hf, Hm, Hc. reflexivity.
Qed.

Lemma MarshalBinary_of_message (ref : BinaryRef) (m : MessageRef) :
  fr ref = None -> mr ref = Some m -> cr ref = None ->
  MarshalBinary ref
  = Returns (x02 :: fst (CopyHashTo m (make 32)), snd (CopyHashTo m (make 32))).
Proof.
  intros Hf Hm Hc. unfold MarshalBinary.
  rewrite valid_by_members, Hf, Hm, Hc.
  destruct (CopyHashTo m (make 32)); reflexivity.
Qed.

Lemma MarshalBinary_of_content (ref : BinaryRef) (c : ContentRef) :
  fr ref = None -> mr ref = None -> cr ref = Some c ->
  MarshalBinary ref
  = if negb (String.eqb (algo c) RefAlgoContentGabby)
    then Returns ([], Some (ErrMarshalContentAlgo (algo c)))
    else match fst (ContentRef_MarshalBinary c) with
         | _ :: rest => Returns (x03 :: rest, snd (ContentRef_MarshalBinary c))
         | [] => Panics
         end.
Proof.
  intros Hf Hm Hc. unfold MarshalBinary.
  rewrite valid_by_members, Hf, Hm, Hc.
  destruct (ContentRef_MarshalBinary c); reflexivity.
Qed.

Lemma MarshalBinary_of_multiple (ref : BinaryRef) :
  2 <= membersSet ref ->
  MarshalBinary ref = Returns ([], Some ErrMoreThanOneRef).
Proof.
  unfold membersSet, MarshalBinary. rewrite valid_by_members.
  destruct (fr ref), (mr ref), (cr ref); cbn; intros H;
    try reflexivity; lia.
Qed.

Lemma content_is_only_member (ref : BinaryRef) :
  valid ref = (RefTypeContent, None) ->
  fr ref = None /\ mr ref = None /\ exists c, cr ref = Some c.
Proof.
  rewrite valid_by_members.
  destruct (fr ref), (mr ref), (cr ref) as [c|]; intros H;
    try discriminate H.
  repeat split. exists c. reflexivity.
Qed.

(** C5: [MarshalBinary] of a reference whose one member is a content
    reference of another algorithm than the gabby one fails with the
    marshal-side content-algorithm error; [UnmarshalBinary] of 33 bytes
    starting with 0x03 whose decoded content reference has another algorithm
    than the gabby one fails with the unmarshal-side content-algorithm
    error. *)
Theorem content_algorithm_gate :
  (forall (ref : BinaryRef) (c : ContentRef),
     valid ref = (RefTypeContent, None) -> cr ref = Some c ->
     algo c <> RefAlgoContentGabby ->
     MarshalBinary ref = Returns ([], Some (ErrMarshalContentAlgo (algo c))))
  /\
  (forall (ref : BinaryRef) (data rest : list byte) (newCR : ContentRef),
     length data = 33 -> data = x03 :: rest ->
     ContentRef_UnmarshalBinary zeroContentRef (x02 :: rest) = (newCR, None) ->
     Algo newCR <> RefAlgoContentGabby ->
     UnmarshalBinary ref data
     = Returns (ref, Some (ErrUnmarshalContentAlgo (algo newCR)))).
Proof.
  split.
  - intros ref c Hv Hc Halgo.
    destruct (content_is_only_member ref Hv) as (Hf & Hm & _).
    rewrite (MarshalBinary_of_content ref c Hf Hm Hc).
    apply String.eqb_neq in Halgo. rewrite Halgo. reflexivity.
  - intros ref data rest newCR Hlen -> Hdec Halgo.
    cbn in Hlen. injection Hlen as Hrest.
    rewrite (UnmarshalBinary_content ref rest Hrest), Hdec.
    apply String.eqb_neq in Halgo. rewrite Halgo. reflexivity.
Qed.

(** C6: when two or more of the three members are set, [valid] fails with
    the more-than-one-ref error and [MarshalBinary] returns no bytes and that
    same error. *)
Theorem multiple_references_rejected (ref : BinaryRef) :
  2 <= membersSet ref ->
  valid ref = (RefTypeUndefined, Some ErrMoreThanOneRef)
  /\ MarshalBinary ref = Returns ([], Some ErrMoreThanOneRef).
Proof.
  intros H. split.
  - revert H. unfold membersSet. rewrite valid_by_members.
    destruct (fr ref), (mr ref), (cr ref); cbn; intros H;
      try reflexivity; lia.
  - apply MarshalBinary_of_multiple. exact H.
Qed.

(** C9: [MarshalBinary] of the reference with no member set returns no bytes
    and no error. *)
Theorem MarshalBinary_undefined :
  valid zeroBinaryRef = (RefTypeUndefined, None)
  /\ MarshalBinary zeroBinaryRef = Returns ([], None).
Proof.
  split; reflexivity.
Qed.

(** C2: given that a feed key is 32 bytes, that [CopyHashTo] leaves the
    length of the buffer alone and that the binary form of a content
    reference is 33 bytes: whenever [MarshalBinary] returns a non-empty byte
    sequence and no error, that sequence is 33 bytes, the discriminant of the
    member that is set (0x01 feed, 0x02 message, 0x03 content) followed by 32
    bytes; and [Size] is 33 for every reference, the zero value included. *)
Theorem MarshalBinary_wire_form :
  PubKeyIs32 -> CopyHashToKeepsLength -> ContentMarshalIs33 ->
  (forall (ref : BinaryRef) (bs : list byte),
     MarshalBinary ref = Returns (bs, None) -> bs <> [] ->
     length bs = 33
     /\ exists p : list byte,
          length p = 32
          /\ ((fst (valid ref) = RefTypeFeed /\ bs = x01 :: p)
              \/ (fst (valid ref) = RefTypeMessage /\ bs = x02 :: p)
              \/ (fst (valid ref) = RefTypeContent /\ bs = x03 :: p)))
  /\ (forall ref : BinaryRef, Size ref = 33)
  /\ Size zeroBinaryRef = 33.
Proof.
  intros Hkey Hcopy Hcontent. split; [|split; reflexivity].
  intros ref bs. unfold MarshalBinary. rewrite valid_by_members.
  destruct (fr ref) as [f|], (mr ref) as [m|], (cr ref) as [c|];
    cbn -[make]; intros H Hne; try discriminate H;
    try (injection H as <-; contradiction Hne; reflexivity).
  - (* feed *)
    injection H as <-. cbn [length]. rewrite (Hkey f). split; [reflexivity|].
    exists (PubKey f). split; [apply Hkey|]. left. split; reflexivity.
  - (* message *)
    pose proof (Hcopy m (make 32)) as Hl.
    destruct (CopyHashTo m (make 32)) as [hd err]. cbn in Hl.
    injection H as <- ->. cbn [length]. rewrite Hl. split; [reflexivity|].
    exists hd. split; [exact Hl|]. right. left. split; reflexivity.
  - (* content *)
    destruct (negb (String.eqb (algo c) RefAlgoContentGabby));
      [discriminate H|].
    pose proof (Hcontent c) as Hl.
    destruct (ContentRef_MarshalBinary c) as [[|t rest] err];
      [discriminate H|].
    injection H as <- ->. specialize (Hl (t :: rest) eq_refl).
    cbn [length] in *. injection Hl as Hl. rewrite Hl.
    split; [reflexivity|].
    exists rest. split; [exact Hl|]. right. right. split; reflexivity.
Qed.

(** ** Decoding into the zero value *)

Lemma decode_feed (k : list byte) :
  NewFeedRefKeeps32 -> length k = 32 ->
  forall dst : BinaryRef,
  exists f, PubKey f = k
            /\ UnmarshalBinary dst (x01 :: k)
               = Returns ({| fr := Some f; mr := mr dst; cr := cr dst |}, None).
Proof.
  intros Hnew Hk dst. destruct (Hnew k Hk) as (f & Hf & Hpk).
  exists f. split; [exact Hpk|].
  rewrite (UnmarshalBinary_feed dst k Hk), Hf. reflexivity.
Qed.

Lemma decode_message (h : list byte) :
  NewMessageRefKeeps32 -> length h = 32 ->
  forall dst : BinaryRef,
  exists m, messagePayload m = h
            /\ UnmarshalBinary dst (x02 :: h)
               = Returns ({| fr := fr dst; mr := Some m; cr := cr dst |}, None).
Proof.
  intros Hnew Hh dst. destruct (Hnew h Hh) as (m & Hm & Hp).
  exists m. split; [exact Hp|].
  rewrite (UnmarshalBinary_message dst h Hh), Hm. reflexivity.
Qed.

Lemma decode_content (h : list byte) :
  ContentUnmarshalKeeps32 -> length h = 32 ->
  forall dst : BinaryRef,
  exists c, contentPayload c = h
            /\ UnmarshalBinary dst (x03 :: h)
               = Returns ({| fr := fr dst; mr := mr dst; cr := Some c |}, None).
Proof.
  intros Hdec Hh dst. destruct (Hdec h Hh) as (c & Hc & Halgo & Hp).
  exists c. split; [exact Hp|].
  rewrite (UnmarshalBinary_content dst h Hh), Hc.
  apply String.eqb_eq in Halgo. rewrite Halgo. reflexivity.
Qed.

(** C1: given the collaborators' contract, for every reference with exactly
    one member set (a content member being of the gabby algorithm),
    [MarshalBinary] returns 33 bytes and no error, and [UnmarshalBinary] of
    those bytes into the zero value succeeds with a reference of the same
    kind and the same 32 payload bytes. *)
Theorem binary_round_trip :
  PubKeyIs32 -> NewFeedRefKeeps32 ->
  CopyHashToKeepsLength -> CopyHashToFits32 -> NewMessageRefKeeps32 ->
  ContentMarshalIs33 -> ContentGabbyMarshals -> ContentUnmarshalKeeps32 ->
  forall ref : BinaryRef,
    membersSet ref = 1 ->
    (forall c, cr ref = Some c -> algo c = RefAlgoContentGabby) ->
    exists (bs : list byte) (ref' : BinaryRef),
      MarshalBinary ref = Returns (bs, None)
      /\ length bs = 33
      /\ UnmarshalBinary zeroBinaryRef bs = Returns (ref', None)
      /\ valid ref' = valid ref
      /\ fst (valid ref) <> RefTypeUndefined
      /\ payload ref' = payload ref
      /\ length (payload ref) = 32.
Proof.
  intros Hkey Hnewf Hcopy Hfits Hnewm Hc33 Hcm Hcu ref Hone Hgabby.
  destruct ref as [[f|] [m|] [c|]]; cbn in Hone; try discriminate Hone;
    cbn [cr] in Hgabby.
  - (* feed *)
    destruct (decode_feed (PubKey f) Hnewf (Hkey f) zeroBinaryRef)
      as (f' & Hpk & Hdec).
    exists (x01 :: PubKey f), {| fr := Some f'; mr := None; cr := None |}.
    rewrite (MarshalBinary_of_feed (mkBinaryRef (Some f) None None) f
               eq_refl eq_refl eq_refl).
    repeat split; try exact Hdec; try discriminate.
    + cbn [length]. rewrite (Hkey f). reflexivity.
    + exact Hpk.
    + apply Hkey.
  - (* message *)
    pose proof (Hcopy m (make 32)) as Hl. pose proof (Hfits m) as Hok.
    assert (Hh : length (messagePayload m) = 32) by exact Hl.
    destruct (decode_message (messagePayload m) Hnewm Hh zeroBinaryRef)
      as (m' & Hp & Hdec).
    exists (x02 :: messagePayload m),
      {| fr := None; mr := Some m'; cr := None |}.
    rewrite (MarshalBinary_of_message (mkBinaryRef None (Some m) None) m
               eq_refl eq_refl eq_refl), Hok.
    repeat split; try exact Hdec; try discriminate.
    + cbn [length]. rewrite Hh. reflexivity.
    + exact Hp.
    + exact Hh.
  - (* content *)
    specialize (Hgabby c eq_refl).
    pose proof (Hcm c Hgabby) as Hok. pose proof (Hc33 c) as Hl.
    assert (Hh : length (contentPayload c) = 32).
    { unfold contentPayload.
      destruct (ContentRef_MarshalBinary c) as [bs err]. cbn in Hok. subst err.
      specialize (Hl bs eq_refl). destruct bs as [|t rest];
        [discriminate Hl|]. cbn in *. lia. }
    destruct (decode_content (contentPayload c) Hcu Hh zeroBinaryRef)
      as (c' & Hp & Hdec).
    exists (x03 :: contentPayload c),
      {| fr := None; mr := None; cr := Some c' |}.
    rewrite (MarshalBinary_of_content (mkBinaryRef None None (Some c)) c
               eq_refl eq_refl eq_refl).
    apply String.eqb_eq in Hgabby. rewrite Hgabby. cbn [negb].
    unfold payload. cbn [fr mr cr]. unfold contentPayload in *.
    destruct (ContentRef_MarshalBinary c) as [[|t rest] err];
      [discriminate Hh|]. cbn in Hok. subst err. cbn [fst snd tl] in *.
    repeat split; try exact Hdec; try discriminate.
    + cbn [length]. rewrite Hh. reflexivity.
    + exact Hp.
    + exact Hh.
Qed.

(** ** Construction *)

Lemma refFromPubKey_bad_length (pk : list byte) :
  length pk <> PublicKeySize ->
  refFromPubKey pk = (None, Some ErrInvalidPublicKey).
Proof.
  intros Hlen. unfold refFromPubKey.
  apply Nat.eqb_neq in Hlen. rewrite Hlen. reflexivity.
Qed.

Lemma refFromPubKey_32 (pk : list byte) :
  NewFeedRefKeeps32 -> length pk = 32 ->
  exists f, PubKey f = pk
            /\ refFromPubKey pk
               = (Some {| fr := Some f; mr := None; cr := None |}, None).
Proof.
  intros Hnew Hlen. destruct (Hnew pk Hlen) as (f & Hf & Hpk).
  exists f. split; [exact Hpk|].
  unfold refFromPubKey. rewrite Hlen, Hf. reflexivity.
Qed.

(** C8: [refFromPubKey] fails with the invalid-public-key error on every
    input whose length is not 32; and, ssb-refs accepting 32-byte keys, on
    the 32 zero bytes it returns a reference whose only member is a feed
    reference and whose [MarshalBinary] is 0x01 followed by 32 zero bytes. *)
Theorem refFromPubKey_spec :
  NewFeedRefKeeps32 ->
  (forall pk : list byte,
     length pk <> 32 -> refFromPubKey pk = (None, Some ErrInvalidPublicKey))
  /\ exists br : BinaryRef,
       refFromPubKey (repeat x00 32) = (Some br, None)
       /\ valid br = (RefTypeFeed, None)
       /\ MarshalBinary br = Returns (x01 :: repeat x00 32, None).
Proof.
  intros Hnew. split.
  - intros pk Hlen. apply refFromPubKey_bad_length. exact Hlen.
  - destruct (refFromPubKey_32 (repeat x00 32) Hnew (repeat_length x00 32))
      as (f & Hpk & Hret).
    exists {| fr := Some f; mr := None; cr := None |}.
    split; [exact Hret|]. split; [reflexivity|].
    rewrite (MarshalBinary_of_feed (mkBinaryRef (Some f) None None) f
               eq_refl eq_refl eq_refl), Hpk.
    reflexivity.
Qed.

(** ** How many members the constructors and the decoder set *)

Lemma fromRef_one_member (r : Ref) (br : BinaryRef) :
  fromRef r = (br, None) -> membersSet br = 1.
Proof.
  destruct r; cbn; intros H; inversion H; reflexivity.
Qed.

Lemma refFromPubKey_one_member
  (pk : list byte) (br : BinaryRef) (e : option error) :
  refFromPubKey pk = (Some br, e) -> membersSet br = 1.
Proof.
  unfold refFromPubKey.
  destruct (negb (length pk =? PublicKeySize)); [discriminate|].
  destruct (NewFeedRefFromBytes pk RefAlgoFeedGabby) as [f err].
  intros H; inversion H; reflexivity.
Qed.

Lemma UnmarshalBinary_success (ref ref' : BinaryRef) (data : list byte) :
  UnmarshalBinary ref data = Returns (ref', None) ->
  (exists f, ref' = {| fr := Some f; mr := mr ref; cr := cr ref |})
  \/ (exists m, ref' = {| fr := fr ref; mr := Some m; cr := cr ref |})
  \/ (exists c, ref' = {| fr := fr ref; mr := mr ref; cr := Some c |}).
Proof.
  destruct (Nat.eq_dec (length data) binrefSize) as [Hlen|Hlen].
  - destruct (length_33_cons data Hlen) as (d0 & rest & -> & Hrest).
    destruct (byte_eq_dec d0 x01) as [->|H1];
      [|destruct (byte_eq_dec d0 x02) as [->|H2];
        [|destruct (byte_eq_dec d0 x03) as [->|H3]]].
    + rewrite (UnmarshalBinary_feed ref rest Hrest).
      destruct (NewFeedRefFromBytes rest RefAlgoFeedGabby) as [f [e'|]];
        intros H; inversion H. left. exists f. reflexivity.
    + rewrite (UnmarshalBinary_message ref rest Hrest).
      destruct (NewMessageRefFromBytes rest RefAlgoMessageGabby) as [m [e'|]];
        intros H; inversion H. right. left. exists m. reflexivity.
    + rewrite (UnmarshalBinary_content ref rest Hrest).
      destruct (ContentRef_UnmarshalBinary zeroContentRef (x02 :: rest))
        as [newCR [e'|]]; [intros H; inversion H|].
      destruct (negb (String.eqb (Algo newCR) RefAlgoContentGabby));
        intros H; inversion H. right. right. exists newCR. reflexivity.
    + rewrite (UnmarshalBinary_other ref d0 rest Hrest H1 H2 H3).
      intros H; inversion H.
  - rewrite (UnmarshalBinary_bad_length ref data Hlen).
    intros H; inversion H.
Qed.

(** One successful decode into the zero value sets exactly one member. *)
Lemma first_decode_one_member (ref' : BinaryRef) (data : list byte) :
  UnmarshalBinary zeroBinaryRef data = Returns (ref', None) ->
  membersSet ref' = 1.
Proof.
  intros H. apply UnmarshalBinary_success in H.
  destruct H as [(f & ->)|[(m & ->)|(c & ->)]]; reflexivity.
Qed.

(** A successful decode never unsets a member: it sets one and leaves the
    other two as they were. *)
Lemma UnmarshalBinary_members (ref ref' : BinaryRef) (data : list byte) :
  UnmarshalBinary ref data = Returns (ref', None) ->
  membersSet ref <= membersSet ref' <= membersSet ref + 1
  /\ 1 <= membersSet ref'.
Proof.
  intros H. apply UnmarshalBinary_success in H. unfold membersSet.
  destruct H as [(f & ->)|[(m & ->)|(c & ->)]]; cbn [fr mr cr];
    destruct (fr ref), (mr ref), (cr ref); lia.
Qed.

(** Decoding a feed blob and then a message blob into one receiver leaves
    both members set. *)
Lemma decode_feed_then_message (k h : list byte) :
  NewFeedRefKeeps32 -> NewMessageRefKeeps32 ->
  length k = 32 -> length h = 32 ->
  exists r1 r2 : BinaryRef,
    UnmarshalBinary zeroBinaryRef (x01 :: k) = Returns (r1, None)
    /\ UnmarshalBinary r1 (x02 :: h) = Returns (r2, None)
    /\ membersSet r2 = 2.
Proof.
  intros Hnewf Hnewm Hk Hh.
  destruct (decode_feed k Hnewf Hk zeroBinaryRef) as (f & _ & H1).
  destruct (decode_message h Hnewm Hh
              {| fr := Some f; mr := None; cr := None |}) as (m & _ & H2).
  eexists. eexists. split; [exact H1|]. split; [exact H2|]. reflexivity.
Qed.

End Properties.

(** * The code on concrete collaborators *)

Lemma array32_length (l : list byte) : length (Model.array32 l) = 32.
Proof.
  unfold Model.array32.
  rewrite length_firstn, length_app, repeat_length. lia.
Qed.

Lemma array32_of_32 (l : list byte) : length l = 32 -> Model.array32 l = l.
Proof.
  intros H. unfold Model.array32. rewrite H. cbn [Nat.sub repeat].
  rewrite app_nil_r. apply firstn_all2. lia.
Qed.

Lemma model_PubKeyIs32 : @PubKeyIs32 Model.refs.
Proof.
  intros f. apply array32_length.
Qed.

Lemma model_NewFeedRefKeeps32 : @NewFeedRefKeeps32 Model.refs.
Proof.
  intros b Hb. exists {| Model.feedID := b; Model.feedAlgo := "ggfeed-v1"%string |}.
  split.
  - change (Model.newFeedRefFromBytes b "ggfeed-v1"%string
            = ({| Model.feedID := b; Model.feedAlgo := "ggfeed-v1"%string |},
               None)).
    unfold Model.newFeedRefFromBytes. rewrite Hb. reflexivity.
  - change (Model.array32 b = b). apply array32_of_32. exact Hb.
Qed.

Lemma model_CopyHashToKeepsLength : @CopyHashToKeepsLength Model.refs.
Proof.
  intros m buf. change (length (fst (Model.copyHashTo m buf)) = length buf).
  unfold Model.copyHashTo.
  destruct (length buf =? 32) eqn:E; cbn [fst]; [|reflexivity].
  apply Nat.eqb_eq in E. rewrite E. apply array32_length.
Qed.

Lemma model_CopyHashToFits32 : @CopyHashToFits32 Model.refs.
Proof.
  intros m. reflexivity.
Qed.

Lemma model_NewMessageRefKeeps32 : @NewMessageRefKeeps32 Model.refs.
Proof.
  intros b Hb. exists {| Model.msgHash := b; Model.msgAlgo := "ggmsg-v1"%string |}.
  split.
  - change (Model.newMessageRefFromBytes b "ggmsg-v1"%string
            = ({| Model.msgHash := b; Model.msgAlgo := "ggmsg-v1"%string |},
               None)).
    unfold Model.newMessageRefFromBytes. rewrite Hb. reflexivity.
  - change (Model.array32 b = b). apply array32_of_32. exact Hb.
Qed.

Lemma model_ContentMarshalIs33 : @ContentMarshalIs33 Model.content.
Proof.
  intros c bs. change (Model.contentMarshal c = (bs, None) -> length bs = 33).
  unfold Model.contentMarshal.
  destruct (String.eqb (Model.crAlgo c) Model.gabbyContent);
    intros H; inversion H.
  cbn [length]. rewrite array32_length. reflexivity.
Qed.

Lemma model_ContentGabbyMarshals : @ContentGabbyMarshals Model.content.
Proof.
  intros c.
  change (Model.crAlgo c = Model.gabbyContent
          -> snd (Model.contentMarshal c) = None).
  unfold Model.contentMarshal. intros H.
  apply String.eqb_eq in H. rewrite H. reflexivity.
Qed.

Lemma model_ContentUnmarshalKeeps32 : @ContentUnmarshalKeeps32 Model.content.
Proof.
  intros h Hh.
  exists {| Model.crHash := h; Model.crAlgo := Model.gabbyContent |}.
  split; [|split; [reflexivity|]].
  - change (Model.contentUnmarshal Model.gabbyContent
              {| Model.crHash := []; Model.crAlgo := EmptyString |} (x02 :: h)
            = ({| Model.crHash := h; Model.crAlgo := Model.gabbyContent |},
               None)).
    unfold Model.contentUnmarshal. cbn [length]. rewrite Hh. reflexivity.
  - change (Model.array32 h = h). apply array32_of_32. exact Hh.
Qed.

(** C7: decoding a feed blob and then a message blob into one receiver that
    starts as the zero value succeeds twice and leaves a reachable state with
    two members set, which [valid] and [MarshalBinary] then reject. *)
Theorem decoding_twice_sets_two_members :
  exists r1 r2 : @BinaryRef Model.refs Model.content,
    UnmarshalBinary zeroBinaryRef (x01 :: Model.zeros32) = Returns (r1, None)
    /\ UnmarshalBinary r1 (x02 :: Model.zeros32) = Returns (r2, None)
    /\ reachable r2
    /\ membersSet r2 = 2
    /\ valid r2 = (RefTypeUndefined, Some ErrMoreThanOneRef)
    /\ MarshalBinary r2 = Returns ([], Some ErrMoreThanOneRef).
Proof.
  destruct (@decode_feed_then_message Model.refs Model.content
              Model.zeros32 Model.zeros32
              model_NewFeedRefKeeps32 model_NewMessageRefKeeps32
              eq_refl eq_refl) as (r1 & r2 & H1 & H2 & Htwo).
  exists r1, r2. split; [exact H1|]. split; [exact H2|].
  split.
  - right. right.
    apply (decoded_step r1 r2 (x02 :: Model.zeros32)); [|exact H2].
    apply (decoded_step zeroBinaryRef r1 (x01 :: Model.zeros32));
      [apply decoded_zero|exact H1].
  - split; [exact Htwo|].
    split.
    + pose proof (proj2 (valid_error_iff r2)) as Hv.
      rewrite Htwo in Hv. specialize (Hv (le_n 2)).
      destruct (valid r2) as [t e] eqn:E. cbn in Hv. subst e.
      destruct (valid_error_is_multiple r2 t ErrMoreThanOneRef E) as [-> _].
      reflexivity.
    + apply MarshalBinary_of_multiple. rewrite Htwo. apply le_n.
Qed.

(** ** The theorems at concrete inputs *)

Lemma binary_round_trip_witness :
  exists (bs : list byte) (ref' : Sample.BinRef),
    MarshalBinary Sample.contentOnly = Returns (bs, None)
    /\ length bs = 33
    /\ UnmarshalBinary Sample.zero bs = Returns (ref', None)
    /\ valid ref' = valid Sample.contentOnly
    /\ fst (valid Sample.contentOnly) <> RefTypeUndefined
    /\ payload ref' = payload Sample.contentOnly
    /\ length (payload Sample.contentOnly) = 32.
Proof.
  apply (@binary_round_trip Model.refs Model.content
           model_PubKeyIs32 model_NewFeedRefKeeps32
           model_CopyHashToKeepsLength model_CopyHashToFits32
           model_NewMessageRefKeeps32 model_ContentMarshalIs33
           model_ContentGabbyMarshals model_ContentUnmarshalKeeps32
           Sample.contentOnly).
  - reflexivity.
  - intros c H. injection H as <-. reflexivity.
Defined.

Lemma MarshalBinary_wire_form_witness :
  MarshalBinary Sample.messageOnly = Returns (x02 :: Model.key32, None)
  /\ length (x02 :: Model.key32) = 33
  /\ exists p : list byte,
       length p = 32
       /\ ((fst (valid Sample.messageOnly) = RefTypeFeed
            /\ x02 :: Model.key32 = x01 :: p)
           \/ (fst (valid Sample.messageOnly) = RefTypeMessage
               /\ x02 :: Model.key32 = x02 :: p)
           \/ (fst (valid Sample.messageOnly) = RefTypeContent
               /\ x02 :: Model.key32 = x03 :: p)).
Proof.
  split; [reflexivity|].
  apply (proj1 (@MarshalBinary_wire_form Model.refs Model.content
                  model_PubKeyIs32 model_CopyHashToKeepsLength
                  model_ContentMarshalIs33)
           Sample.messageOnly (x02 :: Model.key32)).
  - reflexivity.
  - discriminate.
Defined.

Lemma UnmarshalBinary_invalid_length_witness :
  length Sample.longBlob <> 33
  /\ UnmarshalBinary Sample.feedOnly Sample.longBlob
     = Returns (Sample.feedOnly, Some (ErrInvalidLen 34)).
Proof.
  split; [vm_compute; lia|].
  apply (@UnmarshalBinary_invalid_length Model.refs Model.content
           Sample.feedOnly Sample.longBlob).
  vm_compute. lia.
Defined.

Lemma UnmarshalBinary_unknown_discriminant_witness :
  length Sample.unknownBlob = 33
  /\ UnmarshalBinary Sample.zero Sample.unknownBlob
     = Returns (Sample.zero, Some (ErrInvalidBinrefType xff)).
Proof.
  split; [reflexivity|].
  apply (@UnmarshalBinary_unknown_discriminant Model.refs Model.content
           Sample.zero Sample.unknownBlob xff Model.zeros32);
    [reflexivity|reflexivity|discriminate|discriminate|discriminate].
Defined.

Lemma content_algorithm_gate_witness :
  MarshalBinary Sample.foreignContentOnly
  = Returns ([], Some (ErrMarshalContentAlgo "sha256"%string))
  /\ UnmarshalBinary Sample.otherZero Sample.contentBlob
     = Returns (Sample.otherZero,
                Some (ErrUnmarshalContentAlgo "sha256"%string)).
Proof.
  split.
  - apply (proj1 (@content_algorithm_gate Model.refs Model.content)
             Sample.foreignContentOnly Model.aForeignContent);
      [reflexivity|reflexivity|discriminate].
  - apply (proj2 (@content_algorithm_gate Model.refs Model.otherContent)
             Sample.otherZero Sample.contentBlob Model.key32
             Model.aForeignContent);
      [reflexivity|reflexivity|reflexivity|discriminate].
Defined.

Lemma multiple_references_rejected_witness :
  2 <= membersSet Sample.feedAndMessage
  /\ valid Sample.feedAndMessage = (RefTypeUndefined, Some ErrMoreThanOneRef)
  /\ MarshalBinary Sample.feedAndMessage
     = Returns ([], Some ErrMoreThanOneRef).
Proof.
  split; [vm_compute; lia|].
  apply (@multiple_references_rejected Model.refs Model.content
           Sample.feedAndMessage).
  vm_compute. lia.
Defined.

Lemma refFromPubKey_spec_witness :
  (forall pk : list byte,
     length pk <> 32
     -> @refFromPubKey Model.refs Model.content pk
        = (None, Some ErrInvalidPublicKey))
  /\ exists br : Sample.BinRef,
       refFromPubKey (repeat x00 32) = (Some br, None)
       /\ valid br = (RefTypeFeed, None)
       /\ MarshalBinary br = Returns (x01 :: repeat x00 32, None).
Proof.
  apply (@refFromPubKey_spec Model.refs Model.content
           model_NewFeedRefKeeps32).
Defined.

Lemma UnmarshalBinary_error_keeps_receiver_witness :
  UnmarshalBinary Sample.feedOnly Sample.unknownBlob
  = Returns (Sample.feedOnly, Some (ErrInvalidBinrefType xff))
  /\ Sample.feedOnly = Sample.feedOnly.
Proof.
  split; [reflexivity|].
  apply (@UnmarshalBinary_error_keeps_receiver Model.refs Model.content
           Sample.feedOnly Sample.feedOnly Sample.unknownBlob
           (ErrInvalidBinrefType xff)).
  reflexivity.
Defined.

(** ** Runs of the code *)

Example run_feed_round_trip :
  MarshalBinary Sample.feedOnly = Returns (x01 :: Model.key32, None)
  /\ UnmarshalBinary Sample.zero (x01 :: Model.key32)
     = Returns (Sample.feedOnly, None).
Proof.
  split; reflexivity.
Qed.

Example run_message_round_trip :
  MarshalBinary Sample.messageOnly = Returns (x02 :: Model.key32, None)
  /\ UnmarshalBinary Sample.zero (x02 :: Model.key32)
     = Returns (Sample.messageOnly, None).
Proof.
  split; reflexivity.
Qed.

Example run_content_round_trip :
  MarshalBinary Sample.contentOnly = Returns (Sample.contentBlob, None)
  /\ UnmarshalBinary Sample.zero Sample.contentBlob
     = Returns (Sample.contentOnly, None).
Proof.
  split; reflexivity.
Qed.

Example run_invalid_lengths :
  map (fun n => UnmarshalBinary Sample.zero (repeat xff n)) [0; 1; 32; 34; 100]
  = map (fun n => Returns (Sample.zero, Some (ErrInvalidLen n)))
      [0; 1; 32; 34; 100].
Proof.
  vm_compute. reflexivity.
Qed.

Example run_unknown_discriminants :
  map (fun d0 => UnmarshalBinary Sample.zero (d0 :: Model.key32))
    [x00; x04; xff]
  = map (fun d0 => Returns (Sample.zero, Some (ErrInvalidBinrefType d0)))
      [x00; x04; xff].
Proof.
  vm_compute. reflexivity.
Qed.

Example run_refFromPubKey_zero_key :
  @refFromPubKey Model.refs Model.content Model.zeros32
  = (Some (@mkBinaryRef Model.refs Model.content
             (Some {| Model.feedID := Model.zeros32;
                      Model.feedAlgo := "ggfeed-v1"%string |}) None None),
     None)
  /\ MarshalBinary
       (@mkBinaryRef Model.refs Model.content
          (Some {| Model.feedID := Model.zeros32;
                   Model.feedAlgo := "ggfeed-v1"%string |}) None None)
     = Returns (x01 :: Model.zeros32, None).
Proof.
  split; reflexivity.
Qed.

Example run_decode_twice :
  UnmarshalBinary Sample.feedOnly (x02 :: Model.key32)
  = Returns (Sample.feedAndMessage, None).
Proof.
  reflexivity.
Qed.

Example run_fromRef :
  @fromRef Model.refs Model.content
    (@DynMessageRef Model.refs Model.content Model.aMessage)
  = (Sample.messageOnly, None)
  /\ @fromRef Model.refs Model.content (@DynOther Model.refs Model.content)
     = (Sample.zero, Some ErrFromRefInvalidType).
Proof.
  split; reflexivity.
Qed.

(** * More properties of binref.go *)

Section MoreProperties.

Context {L : RefsLib} {C : ContentRefImpl} {S : RefStrings}.

(** ** [valid], [MarshalBinary] and [UnmarshalBinary] once more *)

(** X1: [valid] reports a kind without error exactly when the member of that
    kind is the only one set, reports [RefTypeUndefined] without error
    exactly when none is set, and returns no error exactly when at most one
    member is set. *)
Theorem valid_kind_iff (ref : BinaryRef) :
  (valid ref = (RefTypeUndefined, None)
   <-> fr ref = None /\ mr ref = None /\ cr ref = None)
  /\ (valid ref = (RefTypeFeed, None)
      <-> fr ref <> None /\ mr ref = None /\ cr ref = None)
  /\ (valid ref = (RefTypeMessage, None)
      <-> fr ref = None /\ mr ref <> None /\ cr ref = None)
  /\ (valid ref = (RefTypeContent, None)
      <-> fr ref = None /\ mr ref = None /\ cr ref <> None)
  /\ (snd (valid ref) = None <-> membersSet ref <= 1).
Proof.
  rewrite valid_by_members. unfold membersSet.
  destruct (fr ref), (mr ref), (cr ref); cbn;
    repeat split; intros; try discriminate; try reflexivity; try lia;
    repeat match goal with
           | H : _ /\ _ |- _ => destruct H
           | H : ?x <> ?x |- _ => contradiction H; reflexivity
           end;
    try discriminate.
Qed.

(** X2: the only panic of [MarshalBinary] is the slice expression
    [crBytes[1:]]: it panics exactly when the one member set is a content
    reference of the gabby algorithm whose own [MarshalBinary] returns an
    empty slice.  No member is dereferenced while nil. *)
Theorem MarshalBinary_panics_iff (ref : BinaryRef) :
  MarshalBinary ref = Panics
  <-> exists c : ContentRef,
        fr ref = None /\ mr ref = None /\ cr ref = Some c
        /\ algo c = RefAlgoContentGabby
        /\ fst (ContentRef_MarshalBinary c) = [].
Proof.
  unfold MarshalBinary. rewrite valid_by_members.
  destruct (fr ref) as [f|], (mr ref) as [m|], (cr ref) as [c|];
    cbn -[make];
    try (split; [discriminate|intros (c' & H1 & H2 & H3 & _); discriminate]).
  - (* message *)
    destruct (CopyHashTo m (make 32)).
    split; [discriminate|intros (c' & H1 & H2 & H3 & _); discriminate].
  - (* content *)
    destruct (String.eqb (algo c) RefAlgoContentGabby) eqn:E; cbn [negb].
    + apply String.eqb_eq in E.
      destruct (ContentRef_MarshalBinary c) as [[|t rest] err] eqn:Em.
      * split; [|reflexivity]. intros _. exists c.
        rewrite Em. repeat split; assumption.
      * split; [discriminate|].
        intros (c' & _ & _ & Hc & _ & Hnil). injection Hc as <-.
        rewrite Em in Hnil. discriminate Hnil.
    + apply String.eqb_neq in E. split; [discriminate|].
      intros (c' & _ & _ & Hc & Halgo & _). injection Hc as <-.
      contradiction.
Qed.


(** What a successful [UnmarshalBinary] tells about its input. *)
Lemma UnmarshalBinary_success_input
  (ref ref' : BinaryRef) (data : list byte) :
  UnmarshalBinary ref data = Returns (ref', None) ->
  exists rest : list byte,
    length rest = 32
    /\ ((data = x01 :: rest
         /\ exists f, NewFeedRefFromBytes rest RefAlgoFeedGabby = (f, None)
                      /\ ref' = {| fr := Some f; mr := mr ref; cr := cr ref |})
        \/ (data = x02 :: rest
            /\ exists m,
                 NewMessageRefFromBytes rest RefAlgoMessageGabby = (m, None)
                 /\ ref' = {| fr := fr ref; mr := Some m; cr := cr ref |})
        \/ (data = x03 :: rest
            /\ exists c,
                 ContentRef_UnmarshalBinary zeroContentRef (x02 :: rest)
                 = (c, None)
                 /\ Algo c = RefAlgoContentGabby
                 /\ ref' = {| fr := fr ref; mr := mr ref; cr := Some c |})).
Proof.
  destruct (Nat.eq_dec (length data) binrefSize) as [Hlen|Hlen].
  - destruct (length_33_cons data Hlen) as (d0 & rest & -> & Hrest).
    intros H. exists rest. split; [exact Hrest|]. revert H.
    destruct (byte_eq_dec d0 x01) as [->|H1];
      [|destruct (byte_eq_dec d0 x02) as [->|H2];
        [|destruct (byte_eq_dec d0 x03) as [->|H3]]].
    + rewrite (UnmarshalBinary_feed ref rest Hrest).
      destruct (NewFeedRefFromBytes rest RefAlgoFeedGabby) as [f [e|]];
        intros H; inversion H.
      left. split; [reflexivity|]. exists f. split; reflexivity.
    + rewrite (UnmarshalBinary_message ref rest Hrest).
      destruct (NewMessageRefFromBytes rest RefAlgoMessageGabby) as [m [e|]];
        intros H; inversion H.
      right. left. split; [reflexivity|]. exists m. split; reflexivity.
    + rewrite (UnmarshalBinary_content ref rest Hrest).
      destruct (ContentRef_UnmarshalBinary zeroContentRef (x02 :: rest))
        as [c [e|]]; [intros H; inversion H|].
      destruct (String.eqb (Algo c) RefAlgoContentGabby) eqn:E; cbn [negb];
        intros H; inversion H.
      right. right. split; [reflexivity|]. exists c.
      split; [reflexivity|]. split; [|reflexivity].
      apply String.eqb_eq. exact E.
    + rewrite (UnmarshalBinary_other ref d0 rest Hrest H1 H2 H3).
      intros H; inversion H.
  - rewrite (UnmarshalBinary_bad_length ref data Hlen).
    intros H; inversion H.
Qed.

(** X4: given parsers that accept every 32 bytes, [UnmarshalBinary] succeeds
    exactly on the inputs of 33 bytes that start with 0x01, 0x02 or 0x03,
    whatever the receiver holds. *)
Theorem UnmarshalBinary_accepts_iff :
  NewFeedRefKeeps32 -> NewMessageRefKeeps32 -> ContentUnmarshalKeeps32 ->
  forall (dst : BinaryRef) (data : list byte),
    (exists ref', UnmarshalBinary dst data = Returns (ref', None))
    <-> length data = 33
        /\ exists rest : list byte,
             data = x01 :: rest \/ data = x02 :: rest \/ data = x03 :: rest.
Proof.
  intros Hnewf Hnewm Hcu dst data. split.
  - intros (ref' & H).
    destruct (UnmarshalBinary_success_input dst ref' data H)
      as (rest & Hrest & [ [-> _] | [ [-> _] | [-> _] ] ]);
      (split; [cbn [length]; rewrite Hrest; reflexivity|]);
      exists rest; auto.
  - intros (Hlen & rest & [-> | [-> | ->] ]); cbn [length] in Hlen;
      injection Hlen as Hrest.
    + destruct (decode_feed rest Hnewf Hrest dst) as (f & _ & H).
      eexists. exact H.
    + destruct (decode_message rest Hnewm Hrest dst) as (m & _ & H).
      eexists. exact H.
    + destruct (decode_content rest Hcu Hrest dst) as (c & _ & H).
      eexists. exact H.
Qed.

(** X5: given the collaborators' contract, whatever [UnmarshalBinary]
    decodes into the zero value, [MarshalBinary] encodes back to the very
    bytes that were decoded, without error. *)
Theorem decode_then_marshal :
  NewFeedRefKeeps32 -> NewMessageRefKeeps32 -> CopyHashToFits32 ->
  ContentUnmarshalKeeps32 -> AlgoReadsField -> ContentGabbyMarshals ->
  forall (data : list byte) (ref' : BinaryRef),
    UnmarshalBinary zeroBinaryRef data = Returns (ref', None) ->
    MarshalBinary ref' = Returns (data, None).
Proof.
  intros Hnewf Hnewm Hfits Hcu Hfield Hcm data ref' H.
  destruct (UnmarshalBinary_success_input zeroBinaryRef ref' data H)
    as (rest & Hrest & [ [-> (f & Hf & ->)]
                       | [ [-> (m & Hm & ->)]
                         | [-> (c & Hc & Halgo & ->)] ] ]);
    cbn [fr mr cr zeroBinaryRef].
  - destruct (Hnewf rest Hrest) as (f0 & Hf0 & Hpk).
    rewrite Hf in Hf0. injection Hf0 as <-.
    rewrite (MarshalBinary_of_feed (mkBinaryRef (Some f) None None) f
               eq_refl eq_refl eq_refl), Hpk.
    reflexivity.
  - destruct (Hnewm rest Hrest) as (m0 & Hm0 & Hp).
    rewrite Hm in Hm0. injection Hm0 as <-.
    rewrite (MarshalBinary_of_message (mkBinaryRef None (Some m) None) m
               eq_refl eq_refl eq_refl), (Hfits m).
    unfold messagePayload in Hp. rewrite Hp. reflexivity.
  - destruct (Hcu rest Hrest) as (c0 & Hc0 & _ & Hp).
    rewrite Hc in Hc0. injection Hc0 as <-.
    rewrite (MarshalBinary_of_content (mkBinaryRef None None (Some c)) c
               eq_refl eq_refl eq_refl).
    rewrite (Hfield c) in Halgo. pose proof (Hcm c Halgo) as Hok.
    apply String.eqb_eq in Halgo. rewrite Halgo. cbn [negb].
    unfold contentPayload in Hp.
    destruct (ContentRef_MarshalBinary c) as [[|t rest'] err];
      cbn [fst snd tl] in *.
    + subst rest. discriminate Hrest.
    + subst. reflexivity.
Qed.

(** X6: decoding into a receiver that already holds one member.  A blob of
    the kind the receiver holds replaces that member and the receiver stays
    valid with the same kind; a blob of another kind leaves two members set,
    and [valid] and [MarshalBinary] reject the receiver from then on. *)
Theorem UnmarshalBinary_into_used_receiver
  (ref ref' : BinaryRef) (d0 : byte) (rest : list byte) :
  membersSet ref = 1 ->
  UnmarshalBinary ref (d0 :: rest) = Returns (ref', None) ->
  (d0 = discriminant (fst (valid ref)) ->
   valid ref' = valid ref /\ membersSet ref' = 1)
  /\ (d0 <> discriminant (fst (valid ref)) ->
      membersSet ref' = 2
      /\ valid ref' = (RefTypeUndefined, Some ErrMoreThanOneRef)
      /\ MarshalBinary ref' = Returns ([], Some ErrMoreThanOneRef)).
Proof.
  intros Hone H.
  destruct (UnmarshalBinary_success_input ref ref' (d0 :: rest) H)
    as (rest' & _ & [ [E (f & _ & ->)]
                    | [ [E (m & _ & ->)] | [E (c & _ & _ & ->)] ] ]);
    injection E as -> _; clear H;
    unfold MarshalBinary; rewrite !valid_by_members;
    destruct ref as [[f0|] [m0|] [c0|]]; cbn in Hone; try discriminate Hone;
    cbn; (split; intros Hd; [try (discriminate Hd); split; reflexivity|]);
    try (contradiction Hd; reflexivity);
    repeat split; reflexivity.
Qed.

(** X7: of two blobs of the same kind decoded one after the other into the
    same receiver, the second wins: the receiver ends as if only the second
    had been decoded. *)
Theorem UnmarshalBinary_same_kind_overwrites
  (ref r1 r2 : BinaryRef) (d0 : byte) (rest1 rest2 : list byte) :
  UnmarshalBinary ref (d0 :: rest1) = Returns (r1, None) ->
  UnmarshalBinary ref (d0 :: rest2) = Returns (r2, None) ->
  UnmarshalBinary r1 (d0 :: rest2) = Returns (r2, None).
Proof.
  intros H1 H2.
  destruct (UnmarshalBinary_success_input ref r1 (d0 :: rest1) H1)
    as (x1 & _ & Hcase1).
  destruct (UnmarshalBinary_success_input ref r2 (d0 :: rest2) H2)
    as (x2 & Hx2 & Hcase2).
  destruct Hcase1 as [ [E1 (f1 & _ & ->)]
                     | [ [E1 (m1 & _ & ->)] | [E1 (c1 & _ & _ & ->)] ] ];
    injection E1 as -> _;
    destruct Hcase2 as [ [E2 (f2 & Hf2 & ->)]
                       | [ [E2 (m2 & Hm2 & ->)]
                         | [E2 (c2 & Hc2 & Ha2 & ->)] ] ];
    try discriminate E2; injection E2 as <-.
  - rewrite (UnmarshalBinary_feed _ rest2 Hx2), Hf2. reflexivity.
  - rewrite (UnmarshalBinary_message _ rest2 Hx2), Hm2. reflexivity.
  - rewrite (UnmarshalBinary_content _ rest2 Hx2), Hc2.
    apply String.eqb_eq in Ha2. rewrite Ha2. reflexivity.
Qed.

(** ** Construction *)

(** X8: on 32 bytes, [refFromPubKey] and decoding those bytes behind the
    feed discriminant into the zero value succeed together and build the
    same reference. *)
Theorem refFromPubKey_agrees_with_UnmarshalBinary
  (pk : list byte) (br : BinaryRef) :
  length pk = 32 ->
  (refFromPubKey pk = (Some br, None)
   <-> UnmarshalBinary zeroBinaryRef (x01 :: pk) = Returns (br, None)).
Proof.
  intros Hlen. rewrite (UnmarshalBinary_feed zeroBinaryRef pk Hlen).
  unfold refFromPubKey. rewrite Hlen. cbn [Nat.eqb negb PublicKeySize].
  change (32 =? 32) with true. cbn [negb zeroBinaryRef mr cr].
  destruct (NewFeedRefFromBytes pk RefAlgoFeedGabby) as [f [e|]];
    split; intros H; inversion H; reflexivity.
Qed.

(** X9: [refFromPubKey] returns a nil reference exactly when the key is not
    32 bytes long.  On 32 bytes it always returns a reference holding the
    feed reference the parser returned, together with the parser's error,
    nil or not. *)
Theorem refFromPubKey_result (pk : list byte) :
  (fst (refFromPubKey pk) = None <-> length pk <> 32)
  /\ (forall (br : BinaryRef) (e : option error),
        refFromPubKey pk = (Some br, e) ->
        length pk = 32
        /\ br = {| fr := Some (fst (NewFeedRefFromBytes pk RefAlgoFeedGabby));
                   mr := None; cr := None |}
        /\ e = snd (NewFeedRefFromBytes pk RefAlgoFeedGabby)
        /\ valid br = (RefTypeFeed, None)).
Proof.
  unfold refFromPubKey, PublicKeySize.
  destruct (Nat.eqb_spec (length pk) 32) as [Hlen|Hlen]; cbn [negb].
  - destruct (NewFeedRefFromBytes pk RefAlgoFeedGabby) as [f err]. cbn.
    split; [split; [discriminate|intros H; contradiction]|].
    intros br e H. inversion H. split; [exact Hlen|].
    repeat split; reflexivity.
  - cbn. split; [split; [intros _; exact Hlen|reflexivity]|].
    intros br e H. discriminate H.
Qed.

(** X21: for a reference whose one member is a message reference,
    [MarshalBinary] always returns 0x02 and the 32 bytes of the buffer,
    together with whatever error [CopyHashTo] returned: the bytes are
    returned on the error path too. *)
Theorem MarshalBinary_message_returns_bytes_with_error :
  CopyHashToKeepsLength ->
  forall (ref : BinaryRef) (m : MessageRef),
    fr ref = None -> mr ref = Some m -> cr ref = None ->
    exists hd : list byte,
      length hd = 32
      /\ MarshalBinary ref
         = Returns (x02 :: hd, snd (CopyHashTo m (make 32))).
Proof.
  intros Hcopy ref m Hf Hm Hc.
  exists (fst (CopyHashTo m (make 32))). split.
  - rewrite (Hcopy m (make 32)). apply repeat_length.
  - apply MarshalBinary_of_message; assumption.
Qed.

(** X22: [fromRef] wraps a content reference of any algorithm; the
    algorithm is only checked when the reference is marshalled, so for an
    algorithm other than the gabby one the construction succeeds, and
    [MarshalBinary] then fails and [ConvertExt] panics. *)
Theorem fromRef_defers_algorithm_gate (c : ContentRef) :
  algo c <> RefAlgoContentGabby ->
  exists br : BinaryRef,
    fromRef (DynContentRef c) = (br, None)
    /\ valid br = (RefTypeContent, None)
    /\ MarshalBinary br = Returns ([], Some (ErrMarshalContentAlgo (algo c)))
    /\ ConvertExt (IBinaryRefPtr (Some br)) = Panics.
Proof.
  intros Halgo. exists {| fr := None; mr := None; cr := Some c |}.
  assert (Hm : MarshalBinary {| fr := None; mr := None; cr := Some c |}
               = Returns ([], Some (ErrMarshalContentAlgo (algo c)))).
  { rewrite (MarshalBinary_of_content (mkBinaryRef None None (Some c)) c
               eq_refl eq_refl eq_refl).
    apply String.eqb_neq in Halgo. rewrite Halgo. reflexivity. }
  split; [reflexivity|]. split; [reflexivity|]. split; [exact Hm|].
  unfold ConvertExt. rewrite Hm. reflexivity.
Qed.

(** ** [GetRef] and [Ref] *)

Ltac getref_cases ref t :=
  unfold GetRef; rewrite valid_by_members; unfold membersSet;
  destruct (fr ref), (mr ref), (cr ref);
  destruct t as [|[|[|[|t]]]]; cbn.

(** X10: [GetRef] gives back what [NewBinaryRef] wrapped when asked for the
    kind of the wrapped value, and fails with the type-differs error, which
    names the kind held, when asked for any other kind. *)
Theorem NewBinaryRef_then_GetRef (t : nat) :
  (forall tr : FeedRef,
     GetRef (fst (NewBinaryRef (DynFeedRef tr))) t
     = if t =? RefType_uint RefTypeFeed
       then (Some (PtrFeedRef (Some tr)), None)
       else (None, Some (ErrGetRefDiffers RefTypeFeed)))
  /\ (forall tr : MessageRef,
        GetRef (fst (NewBinaryRef (DynMessageRef tr))) t
        = if t =? RefType_uint RefTypeMessage
          then (Some (PtrMessageRef (Some tr)), None)
          else (None, Some (ErrGetRefDiffers RefTypeMessage)))
  /\ (forall tr : ContentRef,
        GetRef (fst (NewBinaryRef (DynContentRef tr))) t
        = if t =? RefType_uint RefTypeContent
          then (Some (PtrContentRef (Some tr)), None)
          else (None, Some (ErrGetRefDiffers RefTypeContent))).
Proof.
  repeat split; intros tr; unfold NewBinaryRef, fromRef, GetRef;
    rewrite valid_by_members; cbn;
    destruct t as [|[|[|[|t]]]]; reflexivity.
Qed.

(** X11: [GetRef] succeeds exactly when the kind asked for is feed, message
    or content and the member of that kind is the only member set; it then
    returns that member. *)
Theorem GetRef_succeeds_iff (ref : BinaryRef) (t : nat) (p : RefPtr) :
  GetRef ref t = (Some p, None)
  <-> (t = RefType_uint RefTypeFeed
       /\ exists f, fr ref = Some f /\ mr ref = None /\ cr ref = None
                    /\ p = PtrFeedRef (Some f))
      \/ (t = RefType_uint RefTypeMessage
          /\ exists m, fr ref = None /\ mr ref = Some m /\ cr ref = None
                       /\ p = PtrMessageRef (Some m))
      \/ (t = RefType_uint RefTypeContent
          /\ exists c, fr ref = None /\ mr ref = None /\ cr ref = Some c
                       /\ p = PtrContentRef (Some c)).
Proof.
  getref_cases ref t;
    (split;
     [ intros H; inversion H; subst;
       first [ left; split; [reflexivity|]; eexists; repeat split; reflexivity
             | right; left; split; [reflexivity|]; eexists;
               repeat split; reflexivity
             | right; right; split; [reflexivity|]; eexists;
               repeat split; reflexivity ]
     | intros [ [Ht (x & Hf & Hm & Hc & ->)]
              | [ [Ht (x & Hf & Hm & Hc & ->)]
                | [Ht (x & Hf & Hm & Hc & ->)] ] ];
       try discriminate; inversion Hf; inversion Hm; inversion Hc;
       reflexivity ]).
Qed.

(** X12: the three ways [GetRef] fails.  With two or more members set it
    wraps the error of [valid], whatever kind is asked for; with at most one
    member set and another kind asked for than the one held it reports the
    kind held; asked for [RefTypeUndefined] on a reference with no member it
    reports an invalid type. *)
Theorem GetRef_errors (ref : BinaryRef) (t : nat) :
  (2 <= membersSet ref ->
   GetRef ref t = (None, Some (ErrGetRefInvalid ErrMoreThanOneRef)))
  /\ (membersSet ref <= 1 -> RefType_uint (fst (valid ref)) <> t ->
      GetRef ref t = (None, Some (ErrGetRefDiffers (fst (valid ref)))))
  /\ (membersSet ref = 0 -> t = RefType_uint RefTypeUndefined ->
      GetRef ref t = (None, Some (ErrGetRefInvalidType 0))).
Proof.
  rewrite (valid_by_members ref).
  getref_cases ref t; repeat split; intros; try reflexivity; try lia;
    try discriminate;
    match goal with H : ?x <> ?x |- _ => contradiction H; reflexivity end.
Qed.

(** X13: [GetRef] returns either a reference and no error or no reference
    and an error, and a reference it returns never wraps a nil pointer: its
    [Ref] method can be called. *)
Theorem GetRef_result_or_error (ref : BinaryRef) (t : nat) :
  (exists (p : RefPtr) (s : string),
     GetRef ref t = (Some p, None) /\ RefPtr_Ref p = Returns s)
  \/ (exists e : error2, GetRef ref t = (None, Some e)).
Proof.
  getref_cases ref t;
    first [ right; eexists; reflexivity
          | left; eexists; eexists; split; reflexivity ].
Qed.

(** X14: [Ref] returns exactly when one member is set, and then returns the
    string of that member; with no member or with several it panics. *)
Theorem BinaryRef_Ref_spec (ref : BinaryRef) :
  (BinaryRef_Ref ref = Panics <-> membersSet ref <> 1)
  /\ (forall f, fr ref = Some f -> mr ref = None -> cr ref = None ->
        BinaryRef_Ref ref = Returns (FeedRef_Ref f))
  /\ (forall m, fr ref = None -> mr ref = Some m -> cr ref = None ->
        BinaryRef_Ref ref = Returns (MessageRef_Ref m))
  /\ (forall c, fr ref = None -> mr ref = None -> cr ref = Some c ->
        BinaryRef_Ref ref = Returns (ContentRef_Ref c)).
Proof.
  unfold BinaryRef_Ref, GetRef. rewrite valid_by_members. unfold membersSet.
  destruct (fr ref), (mr ref), (cr ref); cbn;
    repeat split; intros; try discriminate; try lia;
    try match goal with H : ?x <> ?x |- _ => contradiction H; reflexivity end;
    try match goal with H : Some _ = Some _ |- _ => inversion H end;
    reflexivity.
Qed.

(** ** [MarshalJSON] *)

(** X15: [MarshalJSON] fails, with the all-nil error and no bytes, exactly
    when no member is set; with at least one member set it returns a string
    between two double quotes and no error.  It never panics. *)
Theorem MarshalJSON_error_iff (ref : BinaryRef) :
  (MarshalJSON ref = Returns ([], Some ErrAllNil) <-> membersSet ref = 0)
  /\ (1 <= membersSet ref
      <-> exists s : string,
            MarshalJSON ref
            = Returns (x22 :: list_byte_of_string s ++ [x22], None))
  /\ MarshalJSON ref <> Panics.
Proof.
  unfold MarshalJSON, bytestr, membersSet.
  destruct (fr ref), (mr ref), (cr ref); cbn;
    repeat split; intros; try discriminate; try lia; try reflexivity;
    try (eexists; reflexivity);
    match goal with H : exists _, _ |- _ => destruct H; discriminate end.
Qed.

(** X16: when [Ref] returns a string, [MarshalJSON] returns that string
    between two double quotes, and no error. *)
Theorem MarshalJSON_quotes_Ref (ref : BinaryRef) (s : string) :
  BinaryRef_Ref ref = Returns s ->
  MarshalJSON ref = Returns (x22 :: list_byte_of_string s ++ [x22], None).
Proof.
  unfold BinaryRef_Ref, GetRef, MarshalJSON, bytestr.
  rewrite valid_by_members.
  destruct (fr ref), (mr ref), (cr ref); cbn; intros H;
    try discriminate H; injection H as <-; reflexivity.
Qed.

(** X17: [MarshalJSON] does not call [valid]: it takes the first member set
    in the order feed, message, content.  So on a reference with two or more
    members, where [Ref] panics and [MarshalBinary] fails, it still returns
    a string and no error. *)
Theorem MarshalJSON_takes_first_member (ref : BinaryRef) :
  (forall f, fr ref = Some f ->
     MarshalJSON ref
     = Returns (x22 :: list_byte_of_string (FeedRef_Ref f) ++ [x22], None))
  /\ (forall m, fr ref = None -> mr ref = Some m ->
        MarshalJSON ref
        = Returns
            (x22 :: list_byte_of_string (MessageRef_Ref m) ++ [x22], None))
  /\ (2 <= membersSet ref ->
      BinaryRef_Ref ref = Panics
      /\ MarshalBinary ref = Returns ([], Some ErrMoreThanOneRef)
      /\ exists bs, MarshalJSON ref = Returns (bs, None)).
Proof.
  split; [|split].
  - intros f Hf. unfold MarshalJSON, bytestr. rewrite Hf. reflexivity.
  - intros m Hf Hm. unfold MarshalJSON, bytestr. rewrite Hf, Hm.
    reflexivity.
  - intros Htwo. split; [|split].
    + revert Htwo. unfold BinaryRef_Ref, membersSet.
      rewrite valid_by_members.
      destruct (fr ref), (mr ref), (cr ref); cbn; intros Htwo;
        try reflexivity; lia.
    + apply MarshalBinary_of_multiple. exact Htwo.
    + revert Htwo. unfold MarshalJSON, bytestr, membersSet.
      destruct (fr ref), (mr ref), (cr ref); cbn; intros Htwo;
        try (eexists; reflexivity); lia.
Qed.

(** ** The codec extension *)

(** What [MarshalBinary] returns when it returns no error. *)
Lemma MarshalBinary_ok_shape (ref : BinaryRef) (bs : list byte) :
  PubKeyIs32 -> CopyHashToKeepsLength -> ContentMarshalIs33 ->
  MarshalBinary ref = Returns (bs, None) ->
  (ref = zeroBinaryRef /\ bs = [])
  \/ (membersSet ref = 1 /\ length bs = 33
      /\ exists p, bs = discriminant (fst (valid ref)) :: p).
Proof.
  intros Hkey Hcopy Hcontent. unfold MarshalBinary.
  rewrite !valid_by_members.
  destruct ref as [[f|] [m|] [c|]]; cbn -[make]; intros H;
    try discriminate H.
  - injection H as <-. right. split; [reflexivity|].
    cbn [length]. rewrite (Hkey f). split; [reflexivity|].
    exists (PubKey f). reflexivity.
  - pose proof (Hcopy m (make 32)) as Hl.
    destruct (CopyHashTo m (make 32)) as [hd err]. cbn in Hl.
    injection H as <- ->. right. split; [reflexivity|].
    cbn [length]. rewrite Hl. split; [reflexivity|].
    exists hd. reflexivity.
  - destruct (negb (String.eqb (algo c) RefAlgoContentGabby));
      [discriminate H|].
    pose proof (Hcontent c) as Hl.
    destruct (ContentRef_MarshalBinary c) as [[|t rest] err];
      [discriminate H|].
    injection H as <- ->. specialize (Hl (t :: rest) eq_refl).
    cbn [length] in *. injection Hl as Hl.
    right. split; [reflexivity|]. rewrite Hl. split; [reflexivity|].
    exists rest. reflexivity.
  - injection H as <-. left. split; reflexivity.
Qed.

(** X18: given the lengths the collaborators promise, when [ConvertExt]
    returns, its argument is a non-nil [*BinaryRef] and the result is either
    33 bytes starting with the discriminant of the one member set, or, for
    the zero value only, no bytes at all; and those no bytes make
    [UpdateExt] panic on every destination. *)
Theorem ConvertExt_wire_form :
  PubKeyIs32 -> CopyHashToKeepsLength -> ContentMarshalIs33 ->
  forall (v : iface) (bs : list byte),
    ConvertExt v = Returns bs ->
    exists br : BinaryRef,
      v = IBinaryRefPtr (Some br)
      /\ ((br = zeroBinaryRef /\ bs = []
           /\ forall dst, UpdateExt dst (IBytes bs) = Panics)
          \/ (membersSet br = 1 /\ length bs = 33
              /\ exists p, bs = discriminant (fst (valid br)) :: p)).
Proof.
  intros Hkey Hcopy Hcontent v bs.
  destruct v as [[br|]| |]; cbn; try discriminate.
  destruct (MarshalBinary br) as [[refBytes [e|]]|] eqn:Hm;
    try discriminate.
  intros H. injection H as ->. exists br. split; [reflexivity|].
  destruct (MarshalBinary_ok_shape br bs Hkey Hcopy Hcontent Hm)
    as [(Hz & Hnil)|Hone].
  - left. split; [exact Hz|]. split; [exact Hnil|].
    intros dst. subst bs. destruct dst as [[d|]| |]; reflexivity.
  - right. exact Hone.
Qed.

(** X20: [UpdateExt] returns only when the destination is a non-nil
    [*BinaryRef], the source a byte slice of 33 bytes starting with 0x01,
    0x02 or 0x03, and [UnmarshalBinary] of them succeeds; the destination
    then is what [UnmarshalBinary] left, with at least one member set.
    Everything else is a panic. *)
Theorem UpdateExt_returns_only_on_wire_form
  (dst src : iface) (br' : BinaryRef) :
  UpdateExt dst src = Returns br' ->
  exists (br : BinaryRef) (d0 : byte) (rest : list byte),
    dst = IBinaryRefPtr (Some br)
    /\ src = IBytes (d0 :: rest)
    /\ length rest = 32
    /\ (d0 = x01 \/ d0 = x02 \/ d0 = x03)
    /\ UnmarshalBinary br (d0 :: rest) = Returns (br', None)
    /\ 1 <= membersSet br'.
Proof.
  destruct dst as [[br|]| |], src as [|input|]; cbn; try discriminate.
  destruct (UnmarshalBinary br input) as [[r [e|]]|] eqn:Hu;
    try discriminate.
  intros H. injection H as ->.
  pose proof (UnmarshalBinary_members br br' input Hu) as [_ Hge].
  destruct (UnmarshalBinary_success_input br br' input Hu)
    as (rest & Hrest & [ [E _] | [ [E _] | [E _] ] ]); subst input;
    eexists br, _, rest; repeat split; auto.
Qed.

(** X19: given the collaborators' contract, the extension round-trips every
    reference with exactly one member set (a content member being of the
    gabby algorithm): [ConvertExt] returns bytes, and [UpdateExt] of those
    bytes into a zero destination returns a reference of the same kind with
    the same payload. *)
Theorem Ext_round_trip :
  PubKeyIs32 -> NewFeedRefKeeps32 ->
  CopyHashToKeepsLength -> CopyHashToFits32 -> NewMessageRefKeeps32 ->
  ContentMarshalIs33 -> ContentGabbyMarshals -> ContentUnmarshalKeeps32 ->
  forall br : BinaryRef,
    membersSet br = 1 ->
    (forall c, cr br = Some c -> algo c = RefAlgoContentGabby) ->
    exists (bs : list byte) (br' : BinaryRef),
      ConvertExt (IBinaryRefPtr (Some br)) = Returns bs
      /\ UpdateExt (IBinaryRefPtr (Some zeroBinaryRef)) (IBytes bs)
         = Returns br'
      /\ valid br' = valid br
      /\ payload br' = payload br.
Proof.
  intros Hkey Hnewf Hcopy Hfits Hnewm Hc33 Hcm Hcu br Hone Hgabby.
  destruct br as [[f|] [m|] [c|]]; cbn in Hone; try discriminate Hone;
    cbn [cr] in Hgabby; unfold ConvertExt, UpdateExt.
  - (* feed *)
    destruct (decode_feed (PubKey f) Hnewf (Hkey f) zeroBinaryRef)
      as (f' & Hpk & Hdec).
    exists (x01 :: PubKey f), {| fr := Some f'; mr := None; cr := None |}.
    rewrite (MarshalBinary_of_feed (mkBinaryRef (Some f) None None) f
               eq_refl eq_refl eq_refl), Hdec.
    repeat split. exact Hpk.
  - (* message *)
    assert (Hh : length (messagePayload m) = 32) by apply (Hcopy m (make 32)).
    destruct (decode_message (messagePayload m) Hnewm Hh zeroBinaryRef)
      as (m' & Hp & Hdec).
    exists (x02 :: messagePayload m),
      {| fr := None; mr := Some m'; cr := None |}.
    rewrite (MarshalBinary_of_message (mkBinaryRef None (Some m) None) m
               eq_refl eq_refl eq_refl), (Hfits m).
    unfold messagePayload in Hdec |- *. rewrite Hdec.
    repeat split. exact Hp.
  - (* content *)
    specialize (Hgabby c eq_refl).
    pose proof (Hcm c Hgabby) as Hok. pose proof (Hc33 c) as Hl.
    rewrite (MarshalBinary_of_content (mkBinaryRef None None (Some c)) c
               eq_refl eq_refl eq_refl).
    apply String.eqb_eq in Hgabby. rewrite Hgabby. cbn [negb].
    assert (Hh : length (contentPayload c) = 32).
    { unfold contentPayload.
      destruct (ContentRef_MarshalBinary c) as [bs err]. cbn in Hok.
      subst err. specialize (Hl bs eq_refl).
      destruct bs as [|t rest]; [discriminate Hl|]. cbn in *. lia. }
    destruct (decode_content (contentPayload c) Hcu Hh zeroBinaryRef)
      as (c' & Hp & Hdec).
    exists (x03 :: contentPayload c),
      {| fr := None; mr := None; cr := Some c' |}.
    unfold payload. cbn [fr mr cr]. unfold contentPayload in *.
    destruct (ContentRef_MarshalBinary c) as [[|t rest] err];
      [discriminate Hh|]. cbn in Hok. subst err. cbn [fst snd tl] in *.
    rewrite Hdec. repeat split. exact Hp.
Qed.

End MoreProperties.

(** ** The further theorems at concrete inputs *)

Lemma model_AlgoReadsField : @AlgoReadsField Model.content.
Proof.
  intros c. reflexivity.
Qed.

Lemma UnmarshalBinary_accepts_iff_witness :
  exists ref' : Sample.BinRef,
    UnmarshalBinary Sample.feedOnly Sample.contentBlob = Returns (ref', None).
Proof.
  apply (proj2 (@UnmarshalBinary_accepts_iff Model.refs Model.content
                  model_NewFeedRefKeeps32 model_NewMessageRefKeeps32
                  model_ContentUnmarshalKeeps32
                  Sample.feedOnly Sample.contentBlob)).
  split; [reflexivity|]. exists Model.key32. right. right. reflexivity.
Defined.

Lemma decode_then_marshal_witness :
  UnmarshalBinary Sample.zero Sample.contentBlob
  = Returns (Sample.contentOnly, None)
  /\ MarshalBinary Sample.contentOnly = Returns (Sample.contentBlob, None).
Proof.
  split; [reflexivity|].
  apply (@decode_then_marshal Model.refs Model.content
           model_NewFeedRefKeeps32 model_NewMessageRefKeeps32
           model_CopyHashToFits32 model_ContentUnmarshalKeeps32
           model_AlgoReadsField model_ContentGabbyMarshals
           Sample.contentBlob Sample.contentOnly).
  reflexivity.
Defined.

Lemma UnmarshalBinary_into_used_receiver_witness :
  (valid Sample2.anotherFeedOnly = valid Sample.feedOnly
   /\ membersSet Sample2.anotherFeedOnly = 1)
  /\ (membersSet Sample.feedAndMessage = 2
      /\ valid Sample.feedAndMessage
         = (RefTypeUndefined, Some ErrMoreThanOneRef)
      /\ MarshalBinary Sample.feedAndMessage
         = Returns ([], Some ErrMoreThanOneRef)).
Proof.
  split.
  - apply (proj1 (@UnmarshalBinary_into_used_receiver
                    Model.refs Model.content
                    Sample.feedOnly Sample2.anotherFeedOnly
                    x01 Sample2.otherKey32 eq_refl eq_refl)).
    reflexivity.
  - apply (proj2 (@UnmarshalBinary_into_used_receiver
                    Model.refs Model.content
                    Sample.feedOnly Sample.feedAndMessage
                    x02 Model.key32 eq_refl eq_refl)).
    discriminate.
Defined.

Lemma UnmarshalBinary_same_kind_overwrites_witness :
  UnmarshalBinary Sample.feedOnly (x01 :: Sample2.otherKey32)
  = Returns (Sample2.anotherFeedOnly, None).
Proof.
  apply (@UnmarshalBinary_same_kind_overwrites Model.refs Model.content
           Sample.zero Sample.feedOnly Sample2.anotherFeedOnly
           x01 Model.key32 Sample2.otherKey32);
    reflexivity.
Defined.

Lemma refFromPubKey_agrees_with_UnmarshalBinary_witness :
  @refFromPubKey Model.refs Model.content Model.key32
  = (Some Sample.feedOnly, None)
  /\ UnmarshalBinary Sample.zero (x01 :: Model.key32)
     = Returns (Sample.feedOnly, None).
Proof.
  split; [reflexivity|].
  apply (proj1 (@refFromPubKey_agrees_with_UnmarshalBinary
                  Model.refs Model.content
                  Model.key32 Sample.feedOnly eq_refl)).
  reflexivity.
Defined.

Lemma refFromPubKey_result_witness :
  length Model.key32 = 32
  /\ Sample.feedOnly
     = @mkBinaryRef Model.refs Model.content
         (Some (fst (Model.newFeedRefFromBytes Model.key32
                       "ggfeed-v1"%string)))
         None None
  /\ None = snd (Model.newFeedRefFromBytes Model.key32 "ggfeed-v1"%string)
  /\ valid Sample.feedOnly = (RefTypeFeed, None).
Proof.
  apply (proj2 (@refFromPubKey_result Model.refs Model.content Model.key32)
           Sample.feedOnly None).
  reflexivity.
Defined.

Lemma MarshalBinary_message_returns_bytes_with_error_witness :
  exists hd : list byte,
    length hd = 32
    /\ MarshalBinary Sample.messageOnly
       = Returns (x02 :: hd,
                  snd (Model.copyHashTo Model.aMessage (make 32))).
Proof.
  apply (@MarshalBinary_message_returns_bytes_with_error
           Model.refs Model.content model_CopyHashToKeepsLength
           Sample.messageOnly Model.aMessage);
    reflexivity.
Defined.

Lemma fromRef_defers_algorithm_gate_witness :
  exists br : Sample.BinRef,
    fromRef (@DynContentRef Model.refs Model.content Model.aForeignContent)
    = (br, None)
    /\ valid br = (RefTypeContent, None)
    /\ MarshalBinary br
       = Returns ([], Some (ErrMarshalContentAlgo "sha256"%string))
    /\ ConvertExt (IBinaryRefPtr (Some br)) = Panics.
Proof.
  apply (@fromRef_defers_algorithm_gate Model.refs Model.content
           Model.aForeignContent).
  discriminate.
Defined.

Lemma GetRef_succeeds_iff_witness :
  GetRef Sample.messageOnly 2
  = (Some (@PtrMessageRef Model.refs Model.content (Some Model.aMessage)),
     None).
Proof.
  apply (proj2 (@GetRef_succeeds_iff Model.refs Model.content
                  Sample.messageOnly 2
                  (@PtrMessageRef Model.refs Model.content
                     (Some Model.aMessage)))).
  right. left. split; [reflexivity|].
  exists Model.aMessage. repeat split.
Defined.

Lemma GetRef_errors_witness :
  GetRef Sample.feedAndMessage 1
  = (None, Some (ErrGetRefInvalid ErrMoreThanOneRef))
  /\ GetRef Sample.messageOnly 1
     = (None, Some (ErrGetRefDiffers RefTypeMessage))
  /\ GetRef Sample.zero 0 = (None, Some (ErrGetRefInvalidType 0)).
Proof.
  split; [|split].
  - apply (proj1 (@GetRef_errors Model.refs Model.content
                    Sample.feedAndMessage 1)).
    vm_compute. lia.
  - apply (proj1 (proj2 (@GetRef_errors Model.refs Model.content
                           Sample.messageOnly 1))).
    + vm_compute. lia.
    + discriminate.
  - apply (proj2 (proj2 (@GetRef_errors Model.refs Model.content
                           Sample.zero 0))); reflexivity.
Defined.

Lemma BinaryRef_Ref_spec_witness :
  @BinaryRef_Ref Model.refs Model.content modelStrings Sample.feedOnly
  = Returns (feedString Model.aFeed).
Proof.
  apply (proj1 (proj2 (@BinaryRef_Ref_spec Model.refs Model.content
                         modelStrings Sample.feedOnly))
           Model.aFeed);
    reflexivity.
Defined.

Lemma MarshalJSON_quotes_Ref_witness :
  @MarshalJSON Model.refs Model.content modelStrings Sample.contentOnly
  = Returns
      (x22 :: list_byte_of_string (contentString Model.aContent) ++ [x22],
       None).
Proof.
  apply (@MarshalJSON_quotes_Ref Model.refs Model.content modelStrings
           Sample.contentOnly (contentString Model.aContent)).
  reflexivity.
Defined.

Lemma MarshalJSON_takes_first_member_witness :
  @MarshalJSON Model.refs Model.content modelStrings Sample.feedAndMessage
  = Returns
      (x22 :: list_byte_of_string (feedString Model.aFeed) ++ [x22], None)
  /\ @MarshalJSON Model.refs Model.content modelStrings
       Sample2.messageAndContent
     = Returns
         (x22 :: list_byte_of_string (messageString Model.aMessage) ++ [x22],
          None)
  /\ @BinaryRef_Ref Model.refs Model.content modelStrings Sample2.allThree
     = Panics.
Proof.
  split; [|split].
  - apply (proj1 (@MarshalJSON_takes_first_member Model.refs Model.content
                    modelStrings Sample.feedAndMessage) Model.aFeed).
    reflexivity.
  - apply (proj1 (proj2 (@MarshalJSON_takes_first_member
                           Model.refs Model.content
                           modelStrings Sample2.messageAndContent))
             Model.aMessage);
      reflexivity.
  - apply (proj2 (proj2 (@MarshalJSON_takes_first_member
                           Model.refs Model.content
                           modelStrings Sample2.allThree))).
    vm_compute. lia.
Defined.

Lemma ConvertExt_wire_form_witness :
  exists br : Sample.BinRef,
    IBinaryRefPtr (Some Sample.messageOnly) = IBinaryRefPtr (Some br)
    /\ ((br = zeroBinaryRef /\ x02 :: Model.key32 = []
         /\ forall dst : @iface Model.refs Model.content,
              UpdateExt dst (IBytes (x02 :: Model.key32)) = Panics)
        \/ (membersSet br = 1 /\ length (x02 :: Model.key32) = 33
            /\ exists p,
                 x02 :: Model.key32 = discriminant (fst (valid br)) :: p)).
Proof.
  apply (@ConvertExt_wire_form Model.refs Model.content
           model_PubKeyIs32 model_CopyHashToKeepsLength
           model_ContentMarshalIs33
           (IBinaryRefPtr (Some Sample.messageOnly)) (x02 :: Model.key32)).
  reflexivity.
Defined.

Lemma UpdateExt_returns_only_on_wire_form_witness :
  exists (br : Sample.BinRef) (d0 : byte) (rest : list byte),
    IBinaryRefPtr (Some Sample.feedOnly) = IBinaryRefPtr (Some br)
    /\ @IBytes Model.refs Model.content (x02 :: Model.key32)
       = IBytes (d0 :: rest)
    /\ length rest = 32
    /\ (d0 = x01 \/ d0 = x02 \/ d0 = x03)
    /\ UnmarshalBinary br (d0 :: rest) = Returns (Sample.feedAndMessage, None)
    /\ 1 <= membersSet Sample.feedAndMessage.
Proof.
  apply (@UpdateExt_returns_only_on_wire_form Model.refs Model.content
           (IBinaryRefPtr (Some Sample.feedOnly))
           (IBytes (x02 :: Model.key32)) Sample.feedAndMessage).
  reflexivity.
Defined.

Lemma Ext_round_trip_witness :
  exists (bs : list byte) (br' : Sample.BinRef),
    ConvertExt (IBinaryRefPtr (Some Sample.messageOnly)) = Returns bs
    /\ UpdateExt (IBinaryRefPtr (Some zeroBinaryRef)) (IBytes bs)
       = Returns br'
    /\ valid br' = valid Sample.messageOnly
    /\ payload br' = payload Sample.messageOnly.
Proof.
  apply (@Ext_round_trip Model.refs Model.content
           model_PubKeyIs32 model_NewFeedRefKeeps32
           model_CopyHashToKeepsLength model_CopyHashToFits32
           model_NewMessageRefKeeps32 model_ContentMarshalIs33
           model_ContentGabbyMarshals model_ContentUnmarshalKeeps32
           Sample.messageOnly).
  - reflexivity.
  - intros c H. discriminate H.
Defined.
